(** * Hurricane Constraint System v2.0: constraint engine and insight generator

    Shallow embedding of [scripts/constraint_engine_v2.py] (classes
    [ConstraintEngine] and [InsightGenerator] with the dataclasses they use)
    and the properties of the specification proved about it.

    Conventions of the embedding:
    - a Python [float] is an exact rational ([Q]); the rounding of binary64
      arithmetic is not modelled, and equalities between numbers are [Qeq];
      where rounding decides a property, the computation of the indices is
      also given over binary64 floats (module [Binary64]);
    - a [datetime] is its number of microseconds since the epoch ([Z]);
    - a [str] is a [string] of ASCII characters;
    - a raised exception is the [Raise] case of [Result];
    - [self.history] is passed in and returned explicitly. *)

From Stdlib Require Import QArith Qabs Qminmax ZArith List String Ascii Bool Lia Lqa.
From Stdlib Require Import DecimalString Qround Qpower.
From Stdlib Require Floats.
Import ListNotations.

Open Scope string_scope.
Open Scope list_scope.
Open Scope Q_scope.

(* ======================================================================== *)
(** * Python primitives                                                       *)
(* ======================================================================== *)

(** ** Exceptions *)

Inductive Exception : Type :=
| ZeroDivisionError
| TypeError.

Inductive Result (A : Type) : Type :=
| Ok (a : A)
| Raise (e : Exception).

Arguments Ok {A} a.
Arguments Raise {A} e.

Definition bind {A B : Type} (m : Result A) (k : A -> Result B) : Result B :=
  match m with
  | Ok a => k a
  | Raise e => Raise e
  end.

Notation "x <- m ;; k" := (bind m (fun x => k))
  (at level 61, m at next level, right associativity).

(** ** Numbers *)

(** [x < y] as a test. *)
Definition Qltb (x y : Q) : bool := negb (Qle_bool y x).

Notation "x <? y" := (Qltb x y) (at level 70, no associativity) : Q_scope.
Notation "x >? y" := (Qltb y x) (at level 70, no associativity) : Q_scope.

(** [max(a, b)]: the first argument unless the second is strictly greater. *)
Definition py_max (a b : Q) : Q := if b >? a then b else a.

(** [min(a, b)]: the first argument unless the second is strictly smaller. *)
Definition py_min (a b : Q) : Q := if b <? a then b else a.

(** [x / y] on floats raises [ZeroDivisionError] when [y] is zero. *)
Definition py_div (x y : Q) : Result Q :=
  if Qeq_bool y 0 then Raise ZeroDivisionError else Ok (x / y).

(** Truth value of an [Optional[float]]: [None] and [0.0] are false. *)
Definition truthy (o : option Q) : bool :=
  match o with
  | Some p => negb (Qeq_bool p 0)
  | None => false
  end.

(** [x <= y] as a test. *)
Notation "x <=? y" := (Qle_bool x y) (at level 70, no associativity) : Q_scope.

(** [int(x)] on a float: truncation towards zero. *)
Definition py_int (q : Q) : Z := Z.quot (Qnum q) (Zpos (Qden q)).

(** [l[i]]: a negative index counts from the end; [None] stands for the
    [IndexError] of an index out of range. *)
Definition py_index {A : Type} (l : list A) (i : Z) : option A :=
  let n := Z.of_nat (List.length l) in
  if (i <? 0)%Z then
    if (n + i <? 0)%Z then None else nth_error l (Z.to_nat (n + i))
  else nth_error l (Z.to_nat i).

(** [x in l] for a list of integers. *)
Definition mem_Z (x : Z) (l : list Z) : bool := existsb (Z.eqb x) l.

(** ** Dates *)

Definition datetime : Type := Z.

(** [(a - b).total_seconds()]. *)
Definition total_seconds (a b : datetime) : Q := inject_Z (a - b) / 1000000.

(** ** Strings *)

Definition ascii_upper (c : ascii) : ascii :=
  let n := nat_of_ascii c in
  if ((97 <=? n) && (n <=? 122))%nat then ascii_of_nat (n - 32) else c.

Definition ascii_lower (c : ascii) : ascii :=
  let n := nat_of_ascii c in
  if ((65 <=? n) && (n <=? 90))%nat then ascii_of_nat (n + 32) else c.

Fixpoint map_string (f : ascii -> ascii) (s : string) : string :=
  match s with
  | EmptyString => EmptyString
  | String c r => String (f c) (map_string f r)
  end.

(** [s.upper()] and [s.lower()]. *)
Definition upper (s : string) : string := map_string ascii_upper s.
Definition lower (s : string) : string := map_string ascii_lower s.

(** [s.capitalize()]: first character upper-cased, the rest lower-cased. *)
Definition capitalize (s : string) : string :=
  match s with
  | EmptyString => EmptyString
  | String c r => String (ascii_upper c) (lower r)
  end.

(** [sub in s]. *)
Fixpoint contains (s sub : string) : bool :=
  String.prefix sub s
  || match s with
     | EmptyString => false
     | String _ r => contains r sub
     end.

(** [sep.join(l)]. *)
Definition join (sep : string) (l : list string) : string := String.concat sep l.

(** Nearest integer, ties to the even one. *)
Definition round_half_even (q : Q) : Z :=
  let n := Qnum q in
  let d := Zpos (Qden q) in
  let fl := (n / d)%Z in
  let r2 := (2 * (n mod d))%Z in
  if (r2 <? d)%Z then fl
  else if (d <? r2)%Z then (fl + 1)%Z
  else if Z.even fl then fl else (fl + 1)%Z.

(** [f"{q:.0f}"]. *)
Definition format_0f (q : Q) : string :=
  let sign := if q <? 0 then "-"%string else ""%string in
  let digits := NilZero.string_of_uint (N.to_uint (Z.to_N (Z.abs (round_half_even q)))) in
  String.append sign digits.

(** [f"{o:.0f}"] for an [Optional[float]]: [None] does not support the format. *)
Definition format_0f_opt (o : option Q) : Result string :=
  match o with
  | Some q => Ok (format_0f q)
  | None => Raise TypeError
  end.

(* ======================================================================== *)
(** * Data structures                                                         *)
(* ======================================================================== *)

(** NHC advisory data (authoritative baseline). *)
Module NHCAdvisory.
Record t : Type := mk {
  storm_id : string;
  storm_name : string;
  advisory_number : Z;
  advisory_time : datetime;
  classification : string;
  current_intensity : Q;
  current_pressure : option Q;
  latitude : Q;
  longitude : Q;
  movement_direction : string;
  movement_speed : Q;
  forecast_positions : list (list (string * Q))
}.
End NHCAdvisory.

(** Environmental parameters for constraints. *)
Module EnvironmentalData.
Record t : Type := mk {
  sst : Q;
  wind_shear : Q;
  potential_intensity : Q;
  latitude : Q;
  source : string
}.
End EnvironmentalData.

(** Triadic constraint state. *)
Module ConstraintState.
Record t : Type := mk {
  timestamp : datetime;
  storm_name : string;
  I : Q;
  R : Q;
  S : Q;
  L : Q;
  dI_dt : Q;
  dR_dt : Q;
  dS_dt : Q;
  dL_dt : Q;
  gradient_hazard : bool;
  refusal_risk : string;
  regime : string;
  current_intensity : Q;
  nhc_forecast_change : Q;
  constraint_summary : string
}.
End ConstraintState.

(** Generated insight combining NHC + constraints. *)
Module DiagnosticInsight.
Record t : Type := mk {
  timestamp : datetime;
  storm_name : string;
  nhc_summary : string;
  constraint_summary : string;
  comparative_insight : string;
  forecast_implication : string;
  confidence : Q;
  thermodynamic_ceiling_pct : Q;
  time_to_peak_estimate : option string;
  structural_trend : string
}.
End DiagnosticInsight.

(* ======================================================================== *)
(** * NHC integration engine                                                  *)
(* ======================================================================== *)

Module NHCEngine.

Definition directions : list string :=
  ["N"; "NNE"; "NE"; "ENE"; "E"; "ESE"; "SE"; "SSE";
   "S"; "SSW"; "SW"; "WSW"; "W"; "WNW"; "NW"; "NNW"].

(** Convert degrees to compass direction. *)
Definition _degrees_to_compass (degrees : Q) : option string :=
  let idx := (py_int ((degrees + 11.25) / 22.5) mod 16)%Z in
  py_index directions idx.

(** Create test advisory for development; [utcnow] is the current time. *)
Definition _create_test_advisory (utcnow : datetime) : NHCAdvisory.t := {|
  NHCAdvisory.storm_id := "test01";
  NHCAdvisory.storm_name := "TEST_STORM";
  NHCAdvisory.advisory_number := 1%Z;
  NHCAdvisory.advisory_time := utcnow;
  NHCAdvisory.classification := "HURRICANE";
  NHCAdvisory.current_intensity := 95.0;
  NHCAdvisory.current_pressure := Some 965.0;
  NHCAdvisory.latitude := 26.5;
  NHCAdvisory.longitude := -82.0;
  NHCAdvisory.movement_direction := "NW";
  NHCAdvisory.movement_speed := 12.0;
  NHCAdvisory.forecast_positions := []
|}.

End NHCEngine.

(* ======================================================================== *)
(** * Environmental data engine                                               *)
(* ======================================================================== *)

Module EnvironmentalEngine.

(** Estimate SST from climatology; [month] is [datetime.utcnow().month]. *)
Definition _estimate_sst (month : Z) (lat lon : Q) : Q :=
  let base_sst :=
    if lat <? 15 then 28.5
    else if lat <? 20 then 29.0
    else if lat <? 25 then 28.5
    else if lat <? 30 then 27.5
    else 26.0 in
  let seasonal_factor := 1.0 in
  let seasonal_factor :=
    if mem_Z month [1; 2; 3]%Z then 0.88
    else if mem_Z month [4; 5]%Z then 0.95
    else if mem_Z month [9; 10; 11]%Z then 1.0
    else seasonal_factor in
  let sst := base_sst * seasonal_factor in
  py_max 24.0 (py_min 31.0 sst).

(** Estimate wind shear. *)
Definition _estimate_shear (lat lon : Q) : Q :=
  let base_shear := 8.0 in
  let lat_effect := Qabs (lat - 20) * 0.6 in
  let shear := base_shear + lat_effect in
  py_max 0 (py_min 50 shear).

(** Calculate potential intensity using the simplified formula. *)
Definition _calculate_potential_intensity (sst lat : Q) : Q :=
  let sst_threshold := 26.0 in
  if sst <? sst_threshold then 70.0
  else
    let sst_contribution := (sst - sst_threshold) * 18.0 in
    let base_pi := 75.0 in
    let raw_pi := base_pi + sst_contribution in
    let lat_factor :=
      if lat <? 15 then 0.85
      else if (15 <=? lat) && (lat <? 25) then 1.0
      else if (25 <=? lat) && (lat <? 30) then 0.90
      else if (30 <=? lat) && (lat <? 35) then 0.75
      else 0.60 in
    let pi := raw_pi * lat_factor in
    py_max 70 (py_min 175 pi).

(** Fetch environmental parameters (climatology-based estimates). *)
Definition fetch_environmental_data (month : Z) (lat lon : Q) : EnvironmentalData.t :=
  let sst := _estimate_sst month lat lon in
  let shear := _estimate_shear lat lon in
  let pi := _calculate_potential_intensity sst lat in
  {| EnvironmentalData.sst := sst;
     EnvironmentalData.wind_shear := shear;
     EnvironmentalData.potential_intensity := pi;
     EnvironmentalData.latitude := lat;
     EnvironmentalData.source := "estimated_climatology" |}.

End EnvironmentalEngine.

(* ======================================================================== *)
(** * Constraint engine                                                       *)
(* ======================================================================== *)

Module ConstraintEngine.

(** The engine object: [self.history] and [self.history_limit]. *)
Record t : Type := mk {
  history : list ConstraintState.t;
  history_limit : nat
}.

Definition __init__ : t := {| history := []; history_limit := 48 |}.

(** [self.history[-1] if self.history else None]. *)
Fixpoint last_state (h : list ConstraintState.t) : option ConstraintState.t :=
  match h with
  | [] => None
  | [s] => Some s
  | _ :: r => last_state r
  end.

(** Convert classification to structural score. *)
Definition _classification_score (classification : string) : Q :=
  let classification := upper classification in
  if contains classification "CATEGORY 5" || contains classification "CAT 5" then 0.95
  else if contains classification "CATEGORY 4" || contains classification "CAT 4" then 0.90
  else if contains classification "CATEGORY 3" || contains classification "CAT 3"
          || contains classification "MAJOR" then 0.85
  else if contains classification "CATEGORY 2" || contains classification "CAT 2" then 0.75
  else if contains classification "CATEGORY 1" || contains classification "CAT 1" then 0.70
  else if contains classification "HURRICANE" then 0.70
  else if contains classification "TROPICAL STORM" || contains classification "TS" then 0.55
  else if contains classification "TROPICAL DEPRESSION" || contains classification "TD" then 0.35
  else if contains classification "POST-TROPICAL" || contains classification "REMNANT" then 0.15
  else 0.50.

(** Determine refusal risk level. *)
Definition _assess_refusal_risk (L S dS_dt : Q) : string :=
  if (L <? 0.15) || ((S <? 0.25) && (dS_dt <? -0.05)) then "CRITICAL"
  else if (L <? 0.25) || ((S <? 0.40) && (dS_dt <? -0.03)) then "HIGH"
  else if L <? 0.40 then "MODERATE"
  else "LOW".

(** Identify constraint regime using simple physical rules.  The first [if]
    of the source returns only when its inner test holds too; otherwise
    control falls through to the rules below it. *)
Definition _identify_regime (I R S dI_dt dR_dt dS_dt : Q) : string :=
  let below :=
    if (I <? 0.35) && (S >? 0.60) then "PEAK_LIMITED"
    else if (S <? 0.35) || ((dS_dt <? -0.05) && (S <? 0.50)) then "COLLAPSE"
    else if ((dI_dt <? -0.02) && (dR_dt <? -0.02)) || (dS_dt <? -0.03) then "DECAY"
    else "STABLE" in
  if (I >? 0.65) && (R >? 0.70) && (S >? 0.60) then
    if (dI_dt >? 0.01) || (dS_dt >? 0.01) then "RI_CANDIDATE" else below
  else below.

(** Generate plain English summary. *)
Definition _generate_summary (I R S : Q) (regime : string) : string :=
  let headroom :=
    if I >? 0.70 then "high thermodynamic headroom"
    else if I >? 0.45 then "moderate headroom"
    else if I >? 0.25 then "low headroom, near ceiling"
    else "very limited headroom" in
  let env_desc :=
    if R >? 0.75 then "highly favorable environment"
    else if R >? 0.55 then "moderately favorable environment"
    else "marginal environment" in
  let struct :=
    if S >? 0.80 then "well-organized structure"
    else if S >? 0.60 then "moderately organized"
    else if S >? 0.40 then "showing structural stress"
    else "poorly organized" in
  (capitalize headroom ++ ", " ++ env_desc ++ ", " ++ struct ++ ". Regime: " ++ regime)%string.

(** Section 1 of [calculate_constraints]: raw thermodynamic headroom,
    clamped.  The division is by the potential intensity. *)
Definition I_raw (nhc : NHCAdvisory.t) (env : EnvironmentalData.t) : Result Q :=
  ratio <- py_div (NHCAdvisory.current_intensity nhc)
                  (EnvironmentalData.potential_intensity env) ;;
  let I_raw := 1.0 - ratio in
  Ok (py_max 0.05 (py_min 0.95 I_raw)).

(** Section 2: raw environmental favorability, clamped. *)
Definition R_raw (env : EnvironmentalData.t) : Q :=
  let shear_factor := py_max 0 (1.0 - EnvironmentalData.wind_shear env / 35.0) in
  let sst_factor := py_max 0 (py_min 1.0 ((EnvironmentalData.sst env - 24.0) / 6.0)) in
  let lat_factor := py_max 0 (1.0 - Qabs (EnvironmentalData.latitude env - 22) / 25) in
  let R_raw := 0.5 * shear_factor + 0.3 * sst_factor + 0.2 * lat_factor in
  py_max 0.1 (py_min 0.95 R_raw).

(** Section 3, proxy 2: pressure-wind relationship. *)
Definition pressure_score (nhc : NHCAdvisory.t) : Q :=
  match NHCAdvisory.current_pressure nhc with
  | Some p =>
      if truthy (Some p) then
        let expected_pressure := 1015 - NHCAdvisory.current_intensity nhc * 0.65 in
        let deviation := Qabs (p - expected_pressure) in
        py_max 0 (1.0 - deviation / 30.0)
      else 0.5
  | None => 0.5
  end.

(** Section 3: raw structural coherence, clamped. *)
Definition S_raw (nhc : NHCAdvisory.t) (env : EnvironmentalData.t) : Q :=
  let class_score := _classification_score (NHCAdvisory.classification nhc) in
  let pressure_score := pressure_score nhc in
  let shear_impact := py_max 0 (1.0 - EnvironmentalData.wind_shear env / 40.0) in
  let S_raw := 0.4 * class_score + 0.3 * pressure_score + 0.3 * shear_impact in
  py_max 0.05 (py_min 0.95 S_raw).

(** Calculate triadic constraints.  Returns the new state and the engine
    with the state stored in its history. *)
Definition calculate_constraints (self : t) (nhc : NHCAdvisory.t) (env : EnvironmentalData.t)
  : Result (ConstraintState.t * t) :=
  let prev := last_state (history self) in
  I_raw <- I_raw nhc env ;;
  let I := match prev with
           | Some prev => 0.7 * I_raw + 0.3 * ConstraintState.I prev
           | None => I_raw
           end in
  let R_raw := R_raw env in
  let R := match prev with
           | Some prev => 0.7 * R_raw + 0.3 * ConstraintState.R prev
           | None => R_raw
           end in
  let S_raw := S_raw nhc env in
  let S := match prev with
           | Some prev => 0.8 * S_raw + 0.2 * ConstraintState.S prev
           | None => S_raw
           end in
  let L := I * R * S in
  let '(dI_dt, dR_dt, dS_dt, dL_dt) :=
    match prev with
    | Some prev =>
        let dt := total_seconds (NHCAdvisory.advisory_time nhc)
                                (ConstraintState.timestamp prev) / 3600 in
        if dt >? 0 then
          ((I - ConstraintState.I prev) / dt,
           (R - ConstraintState.R prev) / dt,
           (S - ConstraintState.S prev) / dt,
           (L - ConstraintState.L prev) / dt)
        else (0.0, 0.0, 0.0, 0.0)
    | None => (0.0, 0.0, 0.0, 0.0)
    end in
  let gradient_hazard := dL_dt <? -0.02 in
  let refusal_risk := _assess_refusal_risk L S dS_dt in
  let regime := _identify_regime I R S dI_dt dR_dt dS_dt in
  let nhc_forecast_change := 0.0 in
  let constraint_summary := _generate_summary I R S regime in
  let state := {|
    ConstraintState.timestamp := NHCAdvisory.advisory_time nhc;
    ConstraintState.storm_name := NHCAdvisory.storm_name nhc;
    ConstraintState.I := I;
    ConstraintState.R := R;
    ConstraintState.S := S;
    ConstraintState.L := L;
    ConstraintState.dI_dt := dI_dt;
    ConstraintState.dR_dt := dR_dt;
    ConstraintState.dS_dt := dS_dt;
    ConstraintState.dL_dt := dL_dt;
    ConstraintState.gradient_hazard := gradient_hazard;
    ConstraintState.refusal_risk := refusal_risk;
    ConstraintState.regime := regime;
    ConstraintState.current_intensity := NHCAdvisory.current_intensity nhc;
    ConstraintState.nhc_forecast_change := nhc_forecast_change;
    ConstraintState.constraint_summary := constraint_summary
  |} in
  let history := (history self ++ [state])%list in
  let history := if (history_limit self <? List.length history)%nat then tl history else history in
  Ok (state, {| history := history; history_limit := history_limit self |}).

End ConstraintEngine.

(* ======================================================================== *)
(** * The indices in binary64                                                 *)
(* ======================================================================== *)

(** Sections 1 to 4 of [calculate_constraints] over binary64 floats, the
    arithmetic of the source: every operation rounds to nearest, ties to
    even, and a decimal literal stands for the nearest float. *)
Module Binary64.

Import Floats.
#[local] Set Warnings "-inexact-float".
#[local] Open Scope float_scope.

(** [max(a, b)] and [min(a, b)]: the first argument unless the second is
    strictly greater, or smaller; a comparison with a NaN is false. *)
Definition py_max (a b : float) : float := if a <? b then b else a.
Definition py_min (a b : float) : float := if b <? a then b else a.

(** [x / y] raises [ZeroDivisionError] when [y] is a zero of either sign. *)
Definition py_div (x y : float) : Result float :=
  if y =? 0 then Raise ZeroDivisionError else Ok (x / y).

(** Truth value of an [Optional[float]]: [None] and the zeros are false. *)
Definition truthy (o : option float) : bool :=
  match o with
  | Some p => negb (p =? 0)
  | None => false
  end.

(** The fields of the advisory and of the environment that the indices
    read, and the indices of a state. *)
Module Advisory.
Record t : Type := mk {
  classification : string;
  current_intensity : float;
  current_pressure : option float
}.
End Advisory.

Module Environment.
Record t : Type := mk {
  sst : float;
  wind_shear : float;
  potential_intensity : float;
  latitude : float
}.
End Environment.

Module Indices.
Record t : Type := mk {
  I : float;
  R : float;
  S : float;
  L : float
}.
End Indices.

(** Convert classification to structural score. *)
Definition _classification_score (classification : string) : float :=
  let classification := upper classification in
  if contains classification "CATEGORY 5" || contains classification "CAT 5" then 0.95
  else if contains classification "CATEGORY 4" || contains classification "CAT 4" then 0.90
  else if contains classification "CATEGORY 3" || contains classification "CAT 3"
          || contains classification "MAJOR" then 0.85
  else if contains classification "CATEGORY 2" || contains classification "CAT 2" then 0.75
  else if contains classification "CATEGORY 1" || contains classification "CAT 1" then 0.70
  else if contains classification "HURRICANE" then 0.70
  else if contains classification "TROPICAL STORM" || contains classification "TS" then 0.55
  else if contains classification "TROPICAL DEPRESSION" || contains classification "TD" then 0.35
  else if contains classification "POST-TROPICAL" || contains classification "REMNANT" then 0.15
  else 0.50.

(** Section 1: raw thermodynamic headroom, clamped. *)
Definition I_raw (nhc : Advisory.t) (env : Environment.t) : Result float :=
  ratio <- py_div (Advisory.current_intensity nhc) (Environment.potential_intensity env) ;;
  let I_raw := 1.0 - ratio in
  Ok (py_max 0.05 (py_min 0.95 I_raw)).

(** Section 2: raw environmental favorability, clamped. *)
Definition R_raw (env : Environment.t) : float :=
  let shear_factor := py_max 0 (1.0 - Environment.wind_shear env / 35.0) in
  let sst_factor := py_max 0 (py_min 1.0 ((Environment.sst env - 24.0) / 6.0)) in
  let lat_factor := py_max 0 (1.0 - abs (Environment.latitude env - 22) / 25) in
  let R_raw := 0.5 * shear_factor + 0.3 * sst_factor + 0.2 * lat_factor in
  py_max 0.1 (py_min 0.95 R_raw).

(** Section 3, proxy 2: pressure-wind relationship. *)
Definition pressure_score (nhc : Advisory.t) : float :=
  match Advisory.current_pressure nhc with
  | Some p =>
      if truthy (Some p) then
        let expected_pressure := 1015 - Advisory.current_intensity nhc * 0.65 in
        let deviation := abs (p - expected_pressure) in
        py_max 0 (1.0 - deviation / 30.0)
      else 0.5
  | None => 0.5
  end.

(** Section 3: raw structural coherence, clamped. *)
Definition S_raw (nhc : Advisory.t) (env : Environment.t) : float :=
  let class_score := _classification_score (Advisory.classification nhc) in
  let pressure_score := pressure_score nhc in
  let shear_impact := py_max 0 (1.0 - Environment.wind_shear env / 40.0) in
  let S_raw := 0.4 * class_score + 0.3 * pressure_score + 0.3 * shear_impact in
  py_max 0.05 (py_min 0.95 S_raw).



(** The documented ranges, as tests on floats. *)
Definition in_range (ix : Indices.t) : bool :=
  (0.05 <=? Indices.I ix) && (Indices.I ix <=? 0.95)
  && (0.1 <=? Indices.R ix) && (Indices.R ix <=? 0.95)
  && (0.05 <=? Indices.S ix) && (Indices.S ix <=? 0.95).



End Binary64.

(* ======================================================================== *)
(** * Insight generator                                                       *)
(* ======================================================================== *)

Module InsightGenerator.

(** [lst.append(x)] when [b] holds. *)
Definition append_if (b : bool) (x : string) (lst : list string) : list string :=
  if b then (lst ++ [x])%list else lst.

(** Plain English NHC summary.  The pressure is formatted whether or not it
    is present. *)
Definition _summarize_nhc (nhc : NHCAdvisory.t) : Result string :=
  let intensity := format_0f (NHCAdvisory.current_intensity nhc) in
  pressure <- format_0f_opt (NHCAdvisory.current_pressure nhc) ;;
  let speed := format_0f (NHCAdvisory.movement_speed nhc) in
  Ok (NHCAdvisory.classification nhc ++ " with " ++ intensity ++ " kt winds "
      ++ "(" ++ pressure ++ " mb), moving " ++ NHCAdvisory.movement_direction nhc ++ " "
      ++ "at " ++ speed ++ " kt.")%string.

(** Generate the key insight comparing NHC to constraints. *)
Definition _generate_comparative_insight (nhc : NHCAdvisory.t)
  (constraints : ConstraintState.t) (env : EnvironmentalData.t) : Result string :=
  let insights : list string := [] in
  ratio <- py_div (NHCAdvisory.current_intensity nhc)
                  (EnvironmentalData.potential_intensity env) ;;
  let ceiling_pct := ratio * 100 in
  let insights :=
    if ceiling_pct >? 85 then
      (insights ++ [("Storm at " ++ format_0f ceiling_pct
                     ++ "% of thermodynamic ceiling (PI="
                     ++ format_0f (EnvironmentalData.potential_intensity env)
                     ++ " kt) - limited upside potential.")%string])%list
    else if (ceiling_pct <? 60) && (ConstraintState.I constraints >? 0.60) then
      (insights ++ [("Storm at " ++ format_0f ceiling_pct
                     ++ "% of ceiling with high headroom - significant intensification possible.")%string])%list
    else insights in
  let insights :=
    if (ConstraintState.S constraints <? 0.40) && (NHCAdvisory.current_intensity nhc >? 80) then
      (insights ++ ["Structural coherence weak despite current intensity - may indicate instability."])%list
    else if (ConstraintState.S constraints >? 0.80) && (ConstraintState.dS_dt constraints >? 0) then
      (insights ++ ["Structure strengthening - supports continued intensification."])%list
    else insights in
  let insights :=
    if String.eqb (ConstraintState.regime constraints) "RI_CANDIDATE" then
      (insights ++ ["All constraints aligned for rapid intensification within 24 hours."])%list
    else if String.eqb (ConstraintState.regime constraints) "PEAK_LIMITED" then
      (insights ++ ["Approaching thermodynamic limits - peak intensity likely within 12-24 hours."])%list
    else if String.eqb (ConstraintState.regime constraints) "COLLAPSE" then
      (insights ++ ["Structural collapse underway - expect abrupt weakening."])%list
    else insights in
  let insights :=
    append_if (ConstraintState.gradient_hazard constraints)
      "Admissibility declining - storm moving into less favorable constraint space."
      insights in
  let insights :=
    match insights with
    | [] => ["Constraint analysis aligns with current NHC assessment."]
    | _ => insights
    end in
  Ok (join " " insights).

(** What do constraints imply for forecast? *)
Definition _generate_forecast_implication (nhc : NHCAdvisory.t)
  (constraints : ConstraintState.t) : string :=
  let implications : list string := [] in
  let implications :=
    if ConstraintState.I constraints <? 0.25 then
      (implications ++ ["Limited intensification potential beyond current state."])%list
    else if (ConstraintState.I constraints >? 0.65) && (ConstraintState.R constraints >? 0.70) then
      (implications ++ ["Ample headroom for strengthening if other factors align."])%list
    else implications in
  let implications :=
    append_if ((ConstraintState.S constraints <? 0.35) && (ConstraintState.dS_dt constraints <? -0.03))
      "Structural deterioration suggests faster weakening than typical."
      implications in
  let implications :=
    if String.eqb (ConstraintState.regime constraints) "RI_CANDIDATE" then
      (implications ++ ["Rapid intensification (35+ kt in 24h) is possible."])%list
    else if String.eqb (ConstraintState.regime constraints) "PEAK_LIMITED" then
      (implications ++ ["Peak intensity likely near current levels."])%list
    else implications in
  let implications :=
    match implications with
    | [] => ["No strong constraint-based deviations from standard forecast expected."]
    | _ => implications
    end in
  join " " implications.

(** [x in lst] for a list of strings. *)
Definition mem (x : string) (lst : list string) : bool := existsb (String.eqb x) lst.

(** Calculate confidence in constraint analysis. *)
Definition _calculate_confidence (constraints : ConstraintState.t) : Q :=
  let confidence := 0.6 in
  let confidence :=
    if mem (ConstraintState.regime constraints) ["RI_CANDIDATE"; "PEAK_LIMITED"; "COLLAPSE"]
    then confidence + 0.15 else confidence in
  let confidence :=
    if Qabs (ConstraintState.dL_dt constraints) >? 0.03
    then confidence + 0.10 else confidence in
  let confidence :=
    if (0.4 <? ConstraintState.L constraints) && (ConstraintState.L constraints <? 0.6)
    then confidence - 0.10 else confidence in
  py_max 0.4 (py_min 0.95 confidence).

(** Estimate time to peak intensity. *)
Definition _estimate_time_to_peak (constraints : ConstraintState.t)
  (env : EnvironmentalData.t) : option string :=
  if String.eqb (ConstraintState.regime constraints) "PEAK_LIMITED" then
    Some "within 12-24 hours"
  else if ConstraintState.I constraints <? 0.30 then
    Some "at or near peak now"
  else if String.eqb (ConstraintState.regime constraints) "RI_CANDIDATE" then
    Some "24-48 hours (if RI occurs)"
  else None.

(** Assess structural trend. *)
Definition _assess_structural_trend (constraints : ConstraintState.t) : string :=
  if ConstraintState.dS_dt constraints >? 0.02 then "strengthening"
  else if ConstraintState.dS_dt constraints <? -0.02 then "deteriorating"
  else "stable".

(** Generate complete diagnostic insight. *)
Definition generate_insight (nhc : NHCAdvisory.t) (constraints : ConstraintState.t)
  (env : EnvironmentalData.t) : Result DiagnosticInsight.t :=
  nhc_summary <- _summarize_nhc nhc ;;
  let constraint_summary := ConstraintState.constraint_summary constraints in
  comparative <- _generate_comparative_insight nhc constraints env ;;
  let implication := _generate_forecast_implication nhc constraints in
  let confidence := _calculate_confidence constraints in
  ratio <- py_div (NHCAdvisory.current_intensity nhc)
                  (EnvironmentalData.potential_intensity env) ;;
  let ceiling_pct := ratio * 100 in
  let time_to_peak := _estimate_time_to_peak constraints env in
  let structural_trend := _assess_structural_trend constraints in
  Ok {|
    DiagnosticInsight.timestamp := NHCAdvisory.advisory_time nhc;
    DiagnosticInsight.storm_name := NHCAdvisory.storm_name nhc;
    DiagnosticInsight.nhc_summary := nhc_summary;
    DiagnosticInsight.constraint_summary := constraint_summary;
    DiagnosticInsight.comparative_insight := comparative;
    DiagnosticInsight.forecast_implication := implication;
    DiagnosticInsight.confidence := confidence;
    DiagnosticInsight.thermodynamic_ceiling_pct := ceiling_pct;
    DiagnosticInsight.time_to_peak_estimate := time_to_peak;
    DiagnosticInsight.structural_trend := structural_trend
  |}.

End InsightGenerator.

(* ======================================================================== *)
(** * Main system                                                             *)
(* ======================================================================== *)

Module HurricaneConstraintSystem.

(** The system object; of its engines only the constraint engine has state. *)
Record t : Type := mk {
  constraint_engine : ConstraintEngine.t
}.

Definition __init__ : t := {| constraint_engine := ConstraintEngine.__init__ |}.

(** Steps 2 to 4 of [process_storm], for an advisory already fetched (the
    test driver [test_storm] runs the same steps on each point): fetch the
    environment at the position of the advisory, calculate the constraints,
    generate the insight.  The system is returned in either case, since the
    history is updated before the insight is generated. *)
Definition process_advisory (self : t) (month : Z) (nhc : NHCAdvisory.t)
  : t * Result (EnvironmentalData.t * ConstraintState.t * DiagnosticInsight.t) :=
  let env := EnvironmentalEngine.fetch_environmental_data month
               (NHCAdvisory.latitude nhc) (NHCAdvisory.longitude nhc) in
  match ConstraintEngine.calculate_constraints (constraint_engine self) nhc env with
  | Raise e => (self, Raise e)
  | Ok (constraints, engine) =>
      let self := {| constraint_engine := engine |} in
      match InsightGenerator.generate_insight nhc constraints env with
      | Raise e => (self, Raise e)
      | Ok insight => (self, Ok (env, constraints, insight))
      end
  end.

(** Get constraint history for visualization; an absent or empty storm
    name selects the whole history. *)
Definition get_constraint_history (self : t) (storm_name : option string)
  : list ConstraintState.t :=
  match storm_name with
  | Some name =>
      if negb (String.eqb name "") then
        filter (fun s => String.eqb (ConstraintState.storm_name s) name)
               (ConstraintEngine.history (constraint_engine self))
      else ConstraintEngine.history (constraint_engine self)
  | None => ConstraintEngine.history (constraint_engine self)
  end.

End HurricaneConstraintSystem.

(* ======================================================================== *)
(** * Driver and specification-side definitions                               *)
(* ======================================================================== *)

(** One advisory cycle as the drivers run it: an advisory with the
    environment fetched for it. *)
Definition Input : Type := (NHCAdvisory.t * EnvironmentalData.t)%type.

(** Feed a sequence of inputs to one engine, in order, collecting the states
    it returns; an exception stops the run. *)
Fixpoint feed (self : ConstraintEngine.t) (inputs : list Input)
  : Result (list ConstraintState.t * ConstraintEngine.t) :=
  match inputs with
  | [] => Ok ([], self)
  | (nhc, env) :: rest =>
      r <- ConstraintEngine.calculate_constraints self nhc env ;;
      rs <- feed (snd r) rest ;;
      Ok (fst r :: fst rs, snd rs)
  end.

(** A valid input in the sense of the specification: strictly positive
    potential intensity, non-negative intensity and pressure. *)
Definition valid_input (i : Input) : Prop :=
  0 < EnvironmentalData.potential_intensity (snd i)
  /\ 0 <= NHCAdvisory.current_intensity (fst i)
  /\ match NHCAdvisory.current_pressure (fst i) with
     | Some p => 0 <= p
     | None => True
     end.

(** The documented ranges of the indices of a state. *)
Definition in_range (s : ConstraintState.t) : Prop :=
  0.05 <= ConstraintState.I s <= 0.95
  /\ 0.1 <= ConstraintState.R s <= 0.95
  /\ 0.05 <= ConstraintState.S s <= 0.95.

(** L is the product of the indices, within the cube of their ranges. *)
Definition admissibility_bounded (s : ConstraintState.t) : Prop :=
  ConstraintState.L s == ConstraintState.I s * ConstraintState.R s * ConstraintState.S s
  /\ 0.05 * 0.1 * 0.05 <= ConstraintState.L s
  /\ 0.05 * 0.05 * 0.05 <= ConstraintState.L s <= 0.95 * 0.95 * 0.95.

(** The regime labels and the risk levels, the latter in increasing order
    of severity. *)
Definition regimes : list string :=
  ["RI_CANDIDATE"; "PEAK_LIMITED"; "COLLAPSE"; "DECAY"; "STABLE"].

Definition risk_levels : list string := ["LOW"; "MODERATE"; "HIGH"; "CRITICAL"].

(** Position of a risk level in LOW < MODERATE < HIGH < CRITICAL. *)
Definition risk_rank (r : string) : option nat :=
  if String.eqb r "LOW" then Some 0%nat
  else if String.eqb r "MODERATE" then Some 1%nat
  else if String.eqb r "HIGH" then Some 2%nat
  else if String.eqb r "CRITICAL" then Some 3%nat
  else None.

(** The guards of the regime rules, as the specification lists them. *)
Definition ri_candidate_rule (I R S dI_dt dS_dt : Q) : Prop :=
  I > 0.65 /\ R > 0.70 /\ S > 0.60 /\ (dI_dt > 0.01 \/ dS_dt > 0.01).

Definition peak_limited_rule (I S : Q) : Prop := I < 0.35 /\ S > 0.60.

Definition collapse_rule (S dS_dt : Q) : Prop :=
  S < 0.35 \/ (dS_dt < -0.05 /\ S < 0.50).

Definition decay_rule (dI_dt dR_dt dS_dt : Q) : Prop :=
  (dI_dt < -0.02 /\ dR_dt < -0.02) \/ dS_dt < -0.03.

(** The classification lookup of the specification: an ordered table of
    keys and scores; the first entry with a key occurring in the label
    gives the score, and 0.50 is the score of a label no entry matches. *)
Definition classification_table : list (list string * Q) :=
  [ (["CATEGORY 5"; "CAT 5"], 0.95);
    (["CATEGORY 4"; "CAT 4"], 0.90);
    (["CATEGORY 3"; "CAT 3"; "MAJOR"], 0.85);
    (["CATEGORY 2"; "CAT 2"], 0.75);
    (["CATEGORY 1"; "CAT 1"], 0.70);
    (["HURRICANE"], 0.70);
    (["TROPICAL STORM"; "TS"], 0.55);
    (["TROPICAL DEPRESSION"; "TD"], 0.35);
    (["POST-TROPICAL"; "REMNANT"], 0.15) ].

Definition matches (label : string) (keys : list string) : bool :=
  existsb (contains label) keys.

Fixpoint lookup_score (table : list (list string * Q)) (label : string) : Q :=
  match table with
  | [] => 0.50
  | (keys, score) :: rest =>
      if matches label keys then score else lookup_score rest label
  end.

(** The keys of the entries above the post-tropical one. *)
Definition earlier_keys : list string :=
  flat_map fst (removelast classification_table).

(** Elapsed hours between the state [p] and the advisory [nhc]. *)
Definition elapsed_hours (nhc : NHCAdvisory.t) (p : ConstraintState.t) : Q :=
  total_seconds (NHCAdvisory.advisory_time nhc) (ConstraintState.timestamp p) / 3600.

(** The history of [self] after the state [st] is stored. *)
Definition stored (self : ConstraintEngine.t) (st : ConstraintState.t)
  : list ConstraintState.t :=
  let h := (ConstraintEngine.history self ++ [st])%list in
  if (ConstraintEngine.history_limit self <? List.length h)%nat then tl h else h.

(** The last [n] elements of a list, in order. *)
Definition keep_last {A : Type} (n : nat) (l : list A) : list A :=
  skipn (List.length l - n) l.

(* ======================================================================== *)
(** * Sample inputs                                                           *)
(* ======================================================================== *)

(** The end-to-end scenario of the specification: a tropical storm of 45 kt
    and 998 mb under a potential intensity of 150 kt, and the advisory issued
    twelve hours later. *)
Definition sample_advisory : NHCAdvisory.t := {|
  NHCAdvisory.storm_id := "al092026";
  NHCAdvisory.storm_name := "IAN";
  NHCAdvisory.advisory_number := 1%Z;
  NHCAdvisory.advisory_time := 0%Z;
  NHCAdvisory.classification := "TROPICAL STORM";
  NHCAdvisory.current_intensity := 45;
  NHCAdvisory.current_pressure := Some 998;
  NHCAdvisory.latitude := 18;
  NHCAdvisory.longitude := -60;
  NHCAdvisory.movement_direction := "NW";
  NHCAdvisory.movement_speed := 12;
  NHCAdvisory.forecast_positions := []
|}.

Definition sample_environment : EnvironmentalData.t := {|
  EnvironmentalData.sst := 29;
  EnvironmentalData.wind_shear := 10;
  EnvironmentalData.potential_intensity := 150;
  EnvironmentalData.latitude := 18;
  EnvironmentalData.source := "estimated_climatology"
|}.

Definition later_advisory : NHCAdvisory.t := {|
  NHCAdvisory.storm_id := "al092026";
  NHCAdvisory.storm_name := "IAN";
  NHCAdvisory.advisory_number := 2%Z;
  NHCAdvisory.advisory_time := 43200000000%Z;
  NHCAdvisory.classification := "HURRICANE";
  NHCAdvisory.current_intensity := 75;
  NHCAdvisory.current_pressure := Some 998;
  NHCAdvisory.latitude := 18;
  NHCAdvisory.longitude := -60;
  NHCAdvisory.movement_direction := "NW";
  NHCAdvisory.movement_speed := 12;
  NHCAdvisory.forecast_positions := []
|}.

(** The sample advisory with another intensity and pressure, and the sample
    environment with another potential intensity. *)
Definition advisory_with (intensity : Q) (pressure : option Q) : NHCAdvisory.t := {|
  NHCAdvisory.storm_id := NHCAdvisory.storm_id sample_advisory;
  NHCAdvisory.storm_name := NHCAdvisory.storm_name sample_advisory;
  NHCAdvisory.advisory_number := NHCAdvisory.advisory_number sample_advisory;
  NHCAdvisory.advisory_time := NHCAdvisory.advisory_time sample_advisory;
  NHCAdvisory.classification := NHCAdvisory.classification sample_advisory;
  NHCAdvisory.current_intensity := intensity;
  NHCAdvisory.current_pressure := pressure;
  NHCAdvisory.latitude := NHCAdvisory.latitude sample_advisory;
  NHCAdvisory.longitude := NHCAdvisory.longitude sample_advisory;
  NHCAdvisory.movement_direction := NHCAdvisory.movement_direction sample_advisory;
  NHCAdvisory.movement_speed := NHCAdvisory.movement_speed sample_advisory;
  NHCAdvisory.forecast_positions := NHCAdvisory.forecast_positions sample_advisory
|}.

Definition environment_with (potential_intensity : Q) : EnvironmentalData.t := {|
  EnvironmentalData.sst := EnvironmentalData.sst sample_environment;
  EnvironmentalData.wind_shear := EnvironmentalData.wind_shear sample_environment;
  EnvironmentalData.potential_intensity := potential_intensity;
  EnvironmentalData.latitude := EnvironmentalData.latitude sample_environment;
  EnvironmentalData.source := EnvironmentalData.source sample_environment
|}.

(** Advisory number [k] of a run at six-hour intervals, and the inputs of a
    run of [n] such advisories under the sample environment. *)
Definition advisory_at (k : nat) : NHCAdvisory.t := {|
  NHCAdvisory.storm_id := NHCAdvisory.storm_id sample_advisory;
  NHCAdvisory.storm_name := NHCAdvisory.storm_name sample_advisory;
  NHCAdvisory.advisory_number := Z.of_nat (S k);
  NHCAdvisory.advisory_time := (21600000000 * Z.of_nat k)%Z;
  NHCAdvisory.classification := NHCAdvisory.classification sample_advisory;
  NHCAdvisory.current_intensity := NHCAdvisory.current_intensity sample_advisory;
  NHCAdvisory.current_pressure := NHCAdvisory.current_pressure sample_advisory;
  NHCAdvisory.latitude := NHCAdvisory.latitude sample_advisory;
  NHCAdvisory.longitude := NHCAdvisory.longitude sample_advisory;
  NHCAdvisory.movement_direction := NHCAdvisory.movement_direction sample_advisory;
  NHCAdvisory.movement_speed := NHCAdvisory.movement_speed sample_advisory;
  NHCAdvisory.forecast_positions := NHCAdvisory.forecast_positions sample_advisory
|}.

Definition sample_run (n : nat) : list Input :=
  map (fun k => (advisory_at k, sample_environment)) (seq 0 n).

(** A depression of 30 kt in a favorable environment, and the same storm
    six hours later as a hurricane. *)
Definition depression_advisory : NHCAdvisory.t := {|
  NHCAdvisory.storm_id := "al102026";
  NHCAdvisory.storm_name := "JULIA";
  NHCAdvisory.advisory_number := 1%Z;
  NHCAdvisory.advisory_time := 0%Z;
  NHCAdvisory.classification := "TROPICAL DEPRESSION";
  NHCAdvisory.current_intensity := 30;
  NHCAdvisory.current_pressure := Some 995.5;
  NHCAdvisory.latitude := 22;
  NHCAdvisory.longitude := -70;
  NHCAdvisory.movement_direction := "W";
  NHCAdvisory.movement_speed := 10;
  NHCAdvisory.forecast_positions := []
|}.

Definition organized_advisory : NHCAdvisory.t := {|
  NHCAdvisory.storm_id := "al102026";
  NHCAdvisory.storm_name := "JULIA";
  NHCAdvisory.advisory_number := 2%Z;
  NHCAdvisory.advisory_time := 21600000000%Z;
  NHCAdvisory.classification := "HURRICANE";
  NHCAdvisory.current_intensity := 30;
  NHCAdvisory.current_pressure := Some 995.5;
  NHCAdvisory.latitude := 22;
  NHCAdvisory.longitude := -70;
  NHCAdvisory.movement_direction := "W";
  NHCAdvisory.movement_speed := 10;
  NHCAdvisory.forecast_positions := []
|}.

Definition favorable_environment : EnvironmentalData.t := {|
  EnvironmentalData.sst := 30;
  EnvironmentalData.wind_shear := 0;
  EnvironmentalData.potential_intensity := 175;
  EnvironmentalData.latitude := 22;
  EnvironmentalData.source := "cira"
|}.

(** The engine after the depression advisory. *)
Definition engine_after_depression : ConstraintEngine.t :=
  match ConstraintEngine.calculate_constraints
          ConstraintEngine.__init__ depression_advisory favorable_environment with
  | Ok (_, self') => self'
  | Raise _ => ConstraintEngine.__init__
  end.

(** The sample advisory under another identifier, number, position,
    movement and forecast, and the sample environment under another
    provenance tag. *)
Definition relocated_advisory : NHCAdvisory.t := {|
  NHCAdvisory.storm_id := "ep052026";
  NHCAdvisory.storm_name := NHCAdvisory.storm_name sample_advisory;
  NHCAdvisory.advisory_number := 17%Z;
  NHCAdvisory.advisory_time := NHCAdvisory.advisory_time sample_advisory;
  NHCAdvisory.classification := NHCAdvisory.classification sample_advisory;
  NHCAdvisory.current_intensity := NHCAdvisory.current_intensity sample_advisory;
  NHCAdvisory.current_pressure := NHCAdvisory.current_pressure sample_advisory;
  NHCAdvisory.latitude := 35;
  NHCAdvisory.longitude := -120;
  NHCAdvisory.movement_direction := "SE";
  NHCAdvisory.movement_speed := 3;
  NHCAdvisory.forecast_positions := [[("lat", 36); ("lon", -119)]]
|}.

Definition retagged_environment : EnvironmentalData.t := {|
  EnvironmentalData.sst := EnvironmentalData.sst sample_environment;
  EnvironmentalData.wind_shear := EnvironmentalData.wind_shear sample_environment;
  EnvironmentalData.potential_intensity :=
    EnvironmentalData.potential_intensity sample_environment;
  EnvironmentalData.latitude := EnvironmentalData.latitude sample_environment;
  EnvironmentalData.source := "cira"
|}.

(** The engine after the sample advisory. *)
Definition engine_after_sample : ConstraintEngine.t :=
  match ConstraintEngine.calculate_constraints
          ConstraintEngine.__init__ sample_advisory sample_environment with
  | Ok (_, self') => self'
  | Raise _ => ConstraintEngine.__init__
  end.

(* ======================================================================== *)
(** * Basic facts                                                             *)
(* ======================================================================== *)

Lemma Qltb_true (x y : Q) : (x <? y) = true <-> x < y.
Proof.
  unfold Qltb. rewrite negb_true_iff, <- not_true_iff_false, Qle_bool_iff.
  split; [apply Qnot_le_lt | apply Qlt_not_le].
Qed.

Lemma Qltb_false (x y : Q) : (x <? y) = false <-> y <= x.
Proof.
  unfold Qltb. rewrite negb_false_iff. apply Qle_bool_iff.
Qed.

Lemma Qltb_reflect (x y : Q) : reflect (x < y) (x <? y).
Proof.
  destruct (x <? y) eqn:E; constructor.
  - now apply Qltb_true.
  - apply Qltb_false in E. now apply Qle_not_lt.
Qed.

(** Case analysis on every comparison in the goal, each turned into the
    inequality it decides. *)
Ltac no_test t :=
  lazymatch t with
  | context [Qltb _ _] => fail
  | _ => idtac
  end.

Ltac qcase :=
  repeat match goal with
  | |- context [Qltb ?a ?b] =>
      no_test a; no_test b;
      let E := fresh "E" in
      destruct (Qltb a b) eqn:E;
      [apply Qltb_true in E | apply Qltb_false in E]
  end.

Lemma py_max_Qmax (a b : Q) : py_max a b == Qmax a b.
Proof.
  unfold py_max. qcase.
  - symmetry. apply Q.max_r. lra.
  - symmetry. apply Q.max_l. lra.
Qed.

Lemma py_min_Qmin (a b : Q) : py_min a b == Qmin a b.
Proof.
  unfold py_min. qcase.
  - symmetry. apply Q.min_r. lra.
  - symmetry. apply Q.min_l. lra.
Qed.

(** The clamp idiom [max(lo, min(hi, x))]. *)
Lemma clamp_range (lo hi x : Q) :
  lo <= hi -> lo <= py_max lo (py_min hi x) <= hi.
Proof. intros H. unfold py_max, py_min. qcase; lra. Qed.

(** Case analysis that follows the control flow: the first comparison still
    to be decided is split, and the conditionals it settles are reduced. *)
Ltac qstep :=
  match goal with
  | |- context [Qltb ?a ?b] =>
      no_test a; no_test b;
      let E := fresh "E" in
      destruct (Qltb a b) eqn:E;
      [apply Qltb_true in E | apply Qltb_false in E];
      cbn [andb orb negb]
  end.

(* ======================================================================== *)
(** * Regime classification                                                   *)
(* ======================================================================== *)

(** The nested test of the source is the conjunction of the specification,
    and the rules below it form a first-match chain. *)
Lemma identify_regime_chain (I R S dI_dt dR_dt dS_dt : Q) :
  ConstraintEngine._identify_regime I R S dI_dt dR_dt dS_dt =
  if (I >? 0.65) && (R >? 0.70) && (S >? 0.60) && ((dI_dt >? 0.01) || (dS_dt >? 0.01))
  then "RI_CANDIDATE"
  else if (I <? 0.35) && (S >? 0.60) then "PEAK_LIMITED"
  else if (S <? 0.35) || ((dS_dt <? -0.05) && (S <? 0.50)) then "COLLAPSE"
  else if ((dI_dt <? -0.02) && (dR_dt <? -0.02)) || (dS_dt <? -0.03) then "DECAY"
  else "STABLE".
Proof.
  unfold ConstraintEngine._identify_regime.
  destruct ((I >? 0.65) && (R >? 0.70) && (S >? 0.60)); [|reflexivity].
  cbn [andb]. destruct ((dI_dt >? 0.01) || (dS_dt >? 0.01)); reflexivity.
Qed.

Lemma ri_candidate_test (I R S dI_dt dS_dt : Q) :
  (I >? 0.65) && (R >? 0.70) && (S >? 0.60) && ((dI_dt >? 0.01) || (dS_dt >? 0.01)) = true
  <-> ri_candidate_rule I R S dI_dt dS_dt.
Proof.
  unfold ri_candidate_rule.
  rewrite !andb_true_iff, orb_true_iff, !Qltb_true. tauto.
Qed.

Lemma peak_limited_test (I S : Q) :
  (I <? 0.35) && (S >? 0.60) = true <-> peak_limited_rule I S.
Proof. unfold peak_limited_rule. rewrite andb_true_iff, !Qltb_true. tauto. Qed.

Lemma collapse_test (S dS_dt : Q) :
  (S <? 0.35) || ((dS_dt <? -0.05) && (S <? 0.50)) = true <-> collapse_rule S dS_dt.
Proof.
  unfold collapse_rule. rewrite orb_true_iff, andb_true_iff, !Qltb_true. tauto.
Qed.

Lemma decay_test (dI_dt dR_dt dS_dt : Q) :
  ((dI_dt <? -0.02) && (dR_dt <? -0.02)) || (dS_dt <? -0.03) = true
  <-> decay_rule dI_dt dR_dt dS_dt.
Proof.
  unfold decay_rule. rewrite orb_true_iff, andb_true_iff, !Qltb_true. tauto.
Qed.

Lemma regimes_NoDup : NoDup regimes.
Proof.
  unfold regimes. repeat constructor; simpl; intuition discriminate.
Qed.

(** A decided guard, as the fact it stands for. *)
Ltac settle_rule :=
  match goal with
  | H : true = true <-> ?P |- _ =>
      assert P by (apply H; reflexivity); clear H
  | H : false = true <-> ?P |- _ =>
      assert (~ P) by (let X := fresh in intros X; apply H in X; discriminate); clear H
  end.

(** C4. The regime classifier is total and first-match: for every
    (I, R, S, dI/dt, dR/dt, dS/dt) it returns one of the five pairwise
    distinct labels; it returns RI_CANDIDATE exactly when the RI guard
    holds (whatever other guards hold too), each later label exactly when
    its guard holds and no earlier one does, and STABLE exactly when no
    guard holds. *)
Theorem identify_regime_first_match (I R S dI_dt dR_dt dS_dt : Q) :
  let regime := ConstraintEngine._identify_regime I R S dI_dt dR_dt dS_dt in
  let ri := ri_candidate_rule I R S dI_dt dS_dt in
  let peak := peak_limited_rule I S in
  let collapse := collapse_rule S dS_dt in
  let decay := decay_rule dI_dt dR_dt dS_dt in
  In regime regimes /\ NoDup regimes
  /\ (regime = "RI_CANDIDATE" <-> ri)
  /\ (regime = "PEAK_LIMITED" <-> ~ ri /\ peak)
  /\ (regime = "COLLAPSE" <-> ~ ri /\ ~ peak /\ collapse)
  /\ (regime = "DECAY" <-> ~ ri /\ ~ peak /\ ~ collapse /\ decay)
  /\ (regime = "STABLE" <-> ~ ri /\ ~ peak /\ ~ collapse /\ ~ decay).
Proof.
  intros regime ri peak collapse decay. subst regime.
  rewrite identify_regime_chain.
  pose proof (ri_candidate_test I R S dI_dt dS_dt) as Hri. fold ri in Hri.
  pose proof (peak_limited_test I S) as Hpeak. fold peak in Hpeak.
  pose proof (collapse_test S dS_dt) as Hcol. fold collapse in Hcol.
  pose proof (decay_test dI_dt dR_dt dS_dt) as Hdec. fold decay in Hdec.
  split; [|split; [apply regimes_NoDup|]].
  - unfold regimes.
    repeat match goal with |- context [if ?b then _ else _] => destruct b end;
      simpl; tauto.
  - destruct ((I >? 0.65) && (R >? 0.70) && (S >? 0.60)
              && ((dI_dt >? 0.01) || (dS_dt >? 0.01)));
    [| destruct ((I <? 0.35) && (S >? 0.60));
       [| destruct ((S <? 0.35) || ((dS_dt <? -0.05) && (S <? 0.50)));
          [| destruct (((dI_dt <? -0.02) && (dR_dt <? -0.02)) || (dS_dt <? -0.03))]]];
    repeat settle_rule; clearbody ri peak collapse decay;
    (repeat apply conj); intros; try discriminate; try tauto.
Qed.

(* ======================================================================== *)
(** * Refusal risk                                                            *)
(* ======================================================================== *)

Lemma assess_refusal_risk_level (L S dS_dt : Q) :
  In (ConstraintEngine._assess_refusal_risk L S dS_dt) risk_levels.
Proof.
  unfold ConstraintEngine._assess_refusal_risk, risk_levels.
  repeat match goal with |- context [if ?b then _ else _] => destruct b end;
    simpl; tauto.
Qed.

(** C7. The risk level is monotonic in L at fixed S and dS/dt: for
    L1 <= L2 both levels have a rank in LOW < MODERATE < HIGH < CRITICAL,
    and the rank at L1 is at least the rank at L2. *)
Theorem assess_refusal_risk_monotonic (L1 L2 S dS_dt : Q) :
  L1 <= L2 ->
  exists n1 n2 : nat,
    risk_rank (ConstraintEngine._assess_refusal_risk L1 S dS_dt) = Some n1
    /\ risk_rank (ConstraintEngine._assess_refusal_risk L2 S dS_dt) = Some n2
    /\ (n2 <= n1)%nat.
Proof.
  intros HL. unfold ConstraintEngine._assess_refusal_risk.
  repeat qstep;
    (do 2 eexists; split; [reflexivity | split; [reflexivity |]]);
    first [lia | exfalso; lra].
Qed.

Lemma assess_refusal_risk_monotonic_witness :
  0.10 <= 0.30
  /\ exists n1 n2 : nat,
       risk_rank (ConstraintEngine._assess_refusal_risk 0.10 0.5 0) = Some n1
       /\ risk_rank (ConstraintEngine._assess_refusal_risk 0.30 0.5 0) = Some n2
       /\ (n2 <= n1)%nat.
Proof.
  split; [lra | apply (assess_refusal_risk_monotonic 0.10 0.30 0.5 0); lra].
Defined.

(* ======================================================================== *)
(** * Insight confidence                                                      *)
(* ======================================================================== *)

Lemma mem_In (x : string) (l : list string) :
  InsightGenerator.mem x l = true <-> In x l.
Proof.
  unfold InsightGenerator.mem. rewrite existsb_exists. split.
  - intros [y [Hy E]]. apply String.eqb_eq in E. now subst.
  - intros H. exists x. split; [exact H | apply String.eqb_refl].
Qed.

(** C9. The confidence is 0.6, plus 0.15 for a regime among RI_CANDIDATE,
    PEAK_LIMITED and COLLAPSE, plus 0.10 when |dL/dt| > 0.03, minus 0.10
    when 0.4 < L < 0.6, each adjustment decided on its own, the sum clamped
    to [0.4, 0.95]; the result lies in [0.4, 0.95]. *)
Theorem calculate_confidence_additive (c : ConstraintState.t) :
  exists a b d : Q,
    (In (ConstraintState.regime c) ["RI_CANDIDATE"; "PEAK_LIMITED"; "COLLAPSE"] /\ a = 0.15
     \/ ~ In (ConstraintState.regime c) ["RI_CANDIDATE"; "PEAK_LIMITED"; "COLLAPSE"] /\ a = 0)
    /\ (Qabs (ConstraintState.dL_dt c) > 0.03 /\ b = 0.10
        \/ ~ Qabs (ConstraintState.dL_dt c) > 0.03 /\ b = 0)
    /\ (0.4 < ConstraintState.L c < 0.6 /\ d = 0.10
        \/ ~ 0.4 < ConstraintState.L c < 0.6 /\ d = 0)
    /\ InsightGenerator._calculate_confidence c == Qmax 0.4 (Qmin 0.95 (0.6 + a + b - d))
    /\ 0.4 <= InsightGenerator._calculate_confidence c <= 0.95.
Proof.
  unfold InsightGenerator._calculate_confidence.
  set (regime_in := InsightGenerator.mem (ConstraintState.regime c)
                      ["RI_CANDIDATE"; "PEAK_LIMITED"; "COLLAPSE"]).
  set (trend := Qabs (ConstraintState.dL_dt c) >? 0.03).
  set (ambiguous := (0.4 <? ConstraintState.L c) && (ConstraintState.L c <? 0.6)).
  exists (if regime_in then 0.15 else 0), (if trend then 0.10 else 0),
         (if ambiguous then 0.10 else 0).
  split; [| split; [| split; [| split]]].
  - destruct regime_in eqn:E; [left | right]; (split; [| reflexivity]).
    + now apply mem_In.
    + intros H. apply mem_In in H. unfold regime_in in E. congruence.
  - subst trend. destruct (Qltb_reflect 0.03 (Qabs (ConstraintState.dL_dt c)));
      [left | right]; (split; [assumption | reflexivity]).
  - subst ambiguous.
    destruct (Qltb_reflect 0.4 (ConstraintState.L c));
      destruct (Qltb_reflect (ConstraintState.L c) 0.6); cbn [andb];
      [left | right | right | right]; (split; [| reflexivity]); tauto.
  - rewrite py_max_Qmax, py_min_Qmin.
    apply Q.max_compat; [reflexivity |]. apply Q.min_compat; [reflexivity |].
    destruct regime_in, trend, ambiguous; lra.
  - apply clamp_range. lra.
Qed.

(* ======================================================================== *)
(** * Classification score                                                    *)
(* ======================================================================== *)

(** The chain of tests of the source is the first-match lookup in
    [classification_table], on the upper-cased label. *)
Lemma classification_score_lookup (label : string) :
  ConstraintEngine._classification_score label
  = lookup_score classification_table (upper label).
Proof.
  unfold ConstraintEngine._classification_score.
  cbn [lookup_score classification_table matches existsb].
  rewrite !orb_false_r, !orb_assoc. reflexivity.
Qed.

Lemma matches_false_cons (label k : string) (ks : list string) :
  matches label (k :: ks) = false ->
  contains label k = false /\ matches label ks = false.
Proof. unfold matches. cbn [existsb]. apply orb_false_iff. Qed.

Lemma matches_app (label : string) (ks ks' : list string) :
  matches label (ks ++ ks') = matches label ks || matches label ks'.
Proof. unfold matches. apply existsb_app. Qed.

(** A label none of whose entries above the last matches is scored by the
    last entry or by the default. *)
Lemma lookup_score_skip_earlier (label : string) :
  matches label earlier_keys = false ->
  lookup_score classification_table label
  = if matches label ["POST-TROPICAL"; "REMNANT"] then 0.15 else 0.50.
Proof.
  unfold earlier_keys.
  cbn [classification_table removelast flat_map fst app].
  intros H.
  repeat (apply matches_false_cons in H; destruct H as [? H]).
  cbn [lookup_score classification_table matches existsb].
  repeat match goal with E : contains label _ = false |- _ => rewrite E; clear E end.
  reflexivity.
Qed.

(** C3 (as amended). The classification score is the first-match lookup of
    the upper-cased label in the fixed table (Category 5 0.95, Category 4
    0.90, Category 3 or MAJOR 0.85, Category 2 0.75, Category 1 0.70,
    HURRICANE 0.70, TROPICAL STORM or TS 0.55, TROPICAL DEPRESSION or TD
    0.35, POST-TROPICAL or REMNANT 0.15, otherwise 0.50), so it does not
    depend on the case of the label; a label containing POST-TROPICAL or
    REMNANT scores 0.15 when no key of an earlier entry occurs in it. *)
Theorem classification_score_first_match (label : string) :
  ConstraintEngine._classification_score label
  = lookup_score classification_table (upper label)
  /\ (forall label' : string,
        upper label' = upper label ->
        ConstraintEngine._classification_score label'
        = ConstraintEngine._classification_score label)
  /\ (matches (upper label) ["POST-TROPICAL"; "REMNANT"] = true ->
      matches (upper label) earlier_keys = false ->
      ConstraintEngine._classification_score label = 0.15)
  /\ (matches (upper label) (flat_map fst classification_table) = false ->
      ConstraintEngine._classification_score label = 0.50).
Proof.
  split; [apply classification_score_lookup | split; [| split]].
  - intros label' E. rewrite !classification_score_lookup. now rewrite E.
  - intros Hlast Hearlier.
    rewrite classification_score_lookup, lookup_score_skip_earlier by assumption.
    now rewrite Hlast.
  - intros Hnone.
    assert (matches (upper label) earlier_keys = false
            /\ matches (upper label) ["POST-TROPICAL"; "REMNANT"] = false) as [He Hl].
    { change (flat_map fst classification_table)
        with (earlier_keys ++ ["POST-TROPICAL"; "REMNANT"])%list in Hnone.
      rewrite matches_app in Hnone. now apply orb_false_iff in Hnone. }
    rewrite classification_score_lookup, lookup_score_skip_earlier by assumption.
    now rewrite Hl.
Qed.

Lemma classification_score_first_match_witness :
  ConstraintEngine._classification_score "Post-Tropical Cyclone" = 0.15
  /\ ConstraintEngine._classification_score "Subtropical Cyclone" = 0.50.
Proof.
  split.
  - apply (classification_score_first_match "Post-Tropical Cyclone"); reflexivity.
  - apply (classification_score_first_match "Subtropical Cyclone"); reflexivity.
Defined.

(** C3 (as stated) fails: these labels contain REMNANT, or POST-TROPICAL,
    and do not score 0.15, because an earlier entry of the table matches
    (HURRICANE in the first, TROPICAL STORM in the second, TS inside
    REMNANTS in the third). *)
Lemma classification_score_remnant_counterexample :
  (contains (upper "Remnants of Hurricane Ian") "REMNANT" = true
   /\ ConstraintEngine._classification_score "Remnants of Hurricane Ian" = 0.70)
  /\ (contains (upper "Post-Tropical Storm") "POST-TROPICAL" = true
      /\ ConstraintEngine._classification_score "Post-Tropical Storm" = 0.55)
  /\ (contains (upper "Remnants") "REMNANT" = true
      /\ ConstraintEngine._classification_score "Remnants" = 0.55)
  /\ ~ 0.70 == 0.15 /\ ~ 0.55 == 0.15.
Proof.
  repeat split; try reflexivity; intros H; discriminate H.
Qed.

(* ======================================================================== *)
(** * One call of [calculate_constraints]                                     *)
(* ======================================================================== *)

Section OneCall.

Variable self : ConstraintEngine.t.
Variable nhc : NHCAdvisory.t.
Variable env : EnvironmentalData.t.

Let prev := ConstraintEngine.last_state (ConstraintEngine.history self).
Let PI := EnvironmentalData.potential_intensity env.
Let intensity := NHCAdvisory.current_intensity nhc.

Lemma py_div_zero (x y : Q) : y == 0 -> py_div x y = Raise ZeroDivisionError.
Proof. intros H. unfold py_div. now rewrite (Qeq_eq_bool _ _ H). Qed.

Lemma py_div_nonzero (x y : Q) : ~ y == 0 -> py_div x y = Ok (x / y).
Proof.
  intros H. unfold py_div. destruct (Qeq_bool y 0) eqn:E; [| reflexivity].
  now apply Qeq_bool_eq in E.
Qed.

Lemma I_raw_zero : PI == 0 -> ConstraintEngine.I_raw nhc env = Raise ZeroDivisionError.
Proof.
  intros H. unfold ConstraintEngine.I_raw. fold PI. now rewrite py_div_zero.
Qed.

Lemma I_raw_nonzero :
  ~ PI == 0 ->
  ConstraintEngine.I_raw nhc env
  = Ok (py_max 0.05 (py_min 0.95 (1.0 - intensity / PI))).
Proof.
  intros H. unfold ConstraintEngine.I_raw. fold PI. now rewrite py_div_nonzero.
Qed.

Lemma I_raw_range (iraw : Q) :
  ConstraintEngine.I_raw nhc env = Ok iraw -> 0.05 <= iraw <= 0.95.
Proof.
  unfold ConstraintEngine.I_raw.
  destruct (py_div _ _); cbn [bind]; [| discriminate].
  intros E. injection E as <-. apply clamp_range. lra.
Qed.

Lemma R_raw_range : 0.1 <= ConstraintEngine.R_raw env <= 0.95.
Proof. unfold ConstraintEngine.R_raw. apply clamp_range. lra. Qed.

Lemma S_raw_range : 0.05 <= ConstraintEngine.S_raw nhc env <= 0.95.
Proof. unfold ConstraintEngine.S_raw. apply clamp_range. lra. Qed.

(** The call fails exactly as the division by the potential intensity. *)
Lemma calculate_constraints_raise :
  PI == 0 ->
  ConstraintEngine.calculate_constraints self nhc env = Raise ZeroDivisionError.
Proof.
  intros H. unfold ConstraintEngine.calculate_constraints.
  now rewrite (I_raw_zero H).
Qed.

(** What a returning call computes, field by field. *)
Lemma calculate_constraints_inv (st : ConstraintState.t) (self' : ConstraintEngine.t) :
  ConstraintEngine.calculate_constraints self nhc env = Ok (st, self') ->
  exists iraw : Q,
    ConstraintEngine.I_raw nhc env = Ok iraw
    /\ ConstraintState.I st
       = match prev with
         | Some p => 0.7 * iraw + 0.3 * ConstraintState.I p
         | None => iraw
         end
    /\ ConstraintState.R st
       = match prev with
         | Some p => 0.7 * ConstraintEngine.R_raw env + 0.3 * ConstraintState.R p
         | None => ConstraintEngine.R_raw env
         end
    /\ ConstraintState.S st
       = match prev with
         | Some p => 0.8 * ConstraintEngine.S_raw nhc env + 0.2 * ConstraintState.S p
         | None => ConstraintEngine.S_raw nhc env
         end
    /\ ConstraintState.L st
       = ConstraintState.I st * ConstraintState.R st * ConstraintState.S st
    /\ (ConstraintState.dI_dt st, ConstraintState.dR_dt st,
        ConstraintState.dS_dt st, ConstraintState.dL_dt st)
       = match prev with
         | Some p =>
             if elapsed_hours nhc p >? 0 then
               ((ConstraintState.I st - ConstraintState.I p) / elapsed_hours nhc p,
                (ConstraintState.R st - ConstraintState.R p) / elapsed_hours nhc p,
                (ConstraintState.S st - ConstraintState.S p) / elapsed_hours nhc p,
                (ConstraintState.L st - ConstraintState.L p) / elapsed_hours nhc p)
             else (0.0, 0.0, 0.0, 0.0)
         | None => (0.0, 0.0, 0.0, 0.0)
         end
    /\ ConstraintState.timestamp st = NHCAdvisory.advisory_time nhc
    /\ ConstraintEngine.history self' = stored self st
    /\ ConstraintEngine.history_limit self' = ConstraintEngine.history_limit self.
Proof.
  unfold ConstraintEngine.calculate_constraints. fold prev.
  destruct (ConstraintEngine.I_raw nhc env) as [iraw |]; cbn [bind]; [| discriminate].
  intros E. exists iraw. split; [reflexivity |].
  unfold stored. destruct prev as [p |].
  - fold (elapsed_hours nhc p) in E. destruct (elapsed_hours nhc p >? 0);
      injection E as <- <-; cbn; repeat split; reflexivity.
  - injection E as <- <-; cbn; repeat split; reflexivity.
Qed.

(** The call returns whenever the potential intensity is not zero. *)
Lemma calculate_constraints_total :
  ~ PI == 0 ->
  exists st self',
    ConstraintEngine.calculate_constraints self nhc env = Ok (st, self').
Proof.
  intros H. unfold ConstraintEngine.calculate_constraints.
  rewrite (I_raw_nonzero H). cbn [bind]. fold prev.
  destruct prev as [p |].
  - cbv zeta. destruct (total_seconds _ _ / 3600 >? 0);
      eexists; eexists; reflexivity.
  - eexists; eexists; reflexivity.
Qed.

End OneCall.

(* ======================================================================== *)
(** * The end-to-end scenario                                                 *)
(* ======================================================================== *)

(** First advisory, no previous state: I is the raw headroom 1 - 45/150,
    the derivatives are 0 and the regime is STABLE. *)
Example scenario_first_call :
  exists (st : ConstraintState.t) (self' : ConstraintEngine.t),
    ConstraintEngine.calculate_constraints
      ConstraintEngine.__init__ sample_advisory sample_environment
    = Ok (st, self')
    /\ ConstraintState.I st == 0.70
    /\ ConstraintState.dI_dt st == 0 /\ ConstraintState.dL_dt st == 0
    /\ ConstraintState.regime st = "STABLE"
    /\ ConstraintEngine.history self' = [st].
Proof.
  do 2 eexists. split; [vm_compute; reflexivity |].
  repeat split; vm_compute; reflexivity.
Qed.

(** Second advisory twelve hours later at 75 kt: the headroom is smoothed
    against the first state, 0.7 * 0.5 + 0.3 * 0.7, and its derivative is
    (0.56 - 0.70) / 12, negative. *)
Example scenario_second_call :
  exists (st : ConstraintState.t) (self' : ConstraintEngine.t),
    ConstraintEngine.calculate_constraints
      engine_after_sample later_advisory sample_environment
    = Ok (st, self')
    /\ ConstraintState.I st == 0.56
    /\ ConstraintState.dI_dt st == (0.56 - 0.70) / 12
    /\ ConstraintState.dI_dt st < 0
    /\ List.length (ConstraintEngine.history self') = 2%nat.
Proof.
  do 2 eexists. split; [vm_compute; reflexivity |].
  repeat split; vm_compute; reflexivity.
Qed.

(* ======================================================================== *)
(** * Smoothing and rates                                                     *)
(* ======================================================================== *)

Lemma pair4_eq {A : Type} (a b c d a' b' c' d' : A) :
  (a, b, c, d) = (a', b', c', d') -> a = a' /\ b = b' /\ c = c' /\ d = d'.
Proof. intros E. injection E as -> -> -> ->. auto. Qed.

(** C5. A call under a non-zero potential intensity returns a state whose
    indices are, when a previous state exists, the combinations
    0.7 raw_I + 0.3 previous.I, 0.7 raw_R + 0.3 previous.R and
    0.8 raw_S + 0.2 previous.S of the clamped raw values, and otherwise the
    clamped raw values themselves, with the four derivatives 0. *)
Theorem smoothing_convex_combination
  (self : ConstraintEngine.t) (nhc : NHCAdvisory.t) (env : EnvironmentalData.t) :
  ~ EnvironmentalData.potential_intensity env == 0 ->
  exists (st : ConstraintState.t) (self' : ConstraintEngine.t) (raw_I : Q),
    ConstraintEngine.calculate_constraints self nhc env = Ok (st, self')
    /\ ConstraintEngine.I_raw nhc env = Ok raw_I
    /\ 0.05 <= raw_I <= 0.95
    /\ 0.1 <= ConstraintEngine.R_raw env <= 0.95
    /\ 0.05 <= ConstraintEngine.S_raw nhc env <= 0.95
    /\ match ConstraintEngine.last_state (ConstraintEngine.history self) with
       | Some previous =>
           ConstraintState.I st == 0.7 * raw_I + 0.3 * ConstraintState.I previous
           /\ ConstraintState.R st
              == 0.7 * ConstraintEngine.R_raw env + 0.3 * ConstraintState.R previous
           /\ ConstraintState.S st
              == 0.8 * ConstraintEngine.S_raw nhc env + 0.2 * ConstraintState.S previous
       | None =>
           ConstraintState.I st == raw_I
           /\ ConstraintState.R st == ConstraintEngine.R_raw env
           /\ ConstraintState.S st == ConstraintEngine.S_raw nhc env
           /\ ConstraintState.dI_dt st == 0 /\ ConstraintState.dR_dt st == 0
           /\ ConstraintState.dS_dt st == 0 /\ ConstraintState.dL_dt st == 0
       end.
Proof.
  intros HPI.
  destruct (calculate_constraints_total self nhc env HPI) as [st [self' E]].
  destruct (calculate_constraints_inv self nhc env st self' E)
    as [raw_I [Hraw [HI [HR [HS [_ [Hd _]]]]]]].
  exists st, self', raw_I.
  split; [exact E | split; [exact Hraw |]].
  split; [exact (I_raw_range nhc env raw_I Hraw) |].
  split; [apply R_raw_range | split; [apply S_raw_range |]].
  destruct (ConstraintEngine.last_state (ConstraintEngine.history self)) as [p |].
  - rewrite HI, HR, HS. repeat split; reflexivity.
  - apply pair4_eq in Hd. destruct Hd as [-> [-> [-> ->]]].
    rewrite HI, HR, HS. repeat split; reflexivity.
Qed.

Lemma smoothing_convex_combination_witness :
  ConstraintEngine.last_state (ConstraintEngine.history engine_after_sample) <> None
  /\ exists (st : ConstraintState.t) (raw_I : Q),
       ConstraintEngine.I_raw later_advisory sample_environment = Ok raw_I
       /\ match ConstraintEngine.last_state (ConstraintEngine.history engine_after_sample) with
          | Some previous =>
              ConstraintState.I st == 0.7 * raw_I + 0.3 * ConstraintState.I previous
          | None => ConstraintState.I st == raw_I
          end.
Proof.
  split; [vm_compute; discriminate |].
  destruct (smoothing_convex_combination engine_after_sample later_advisory
              sample_environment) as [st [self' [raw_I [_ [Hraw [_ [_ [_ H]]]]]]]].
  - cbn. intros H. discriminate H.
  - exists st, raw_I. split; [exact Hraw |].
    destruct (ConstraintEngine.last_state (ConstraintEngine.history engine_after_sample));
      exact (proj1 H).
Defined.

(** C6. A call under a non-zero potential intensity returns, whatever the
    timestamps; when a previous state exists and the elapsed hours are
    strictly positive, each derivative is (new - previous) / elapsed hours;
    when the elapsed hours are not positive, or no previous state exists,
    the four derivatives are 0. *)
Theorem rates_of_change
  (self : ConstraintEngine.t) (nhc : NHCAdvisory.t) (env : EnvironmentalData.t) :
  ~ EnvironmentalData.potential_intensity env == 0 ->
  exists (st : ConstraintState.t) (self' : ConstraintEngine.t),
    ConstraintEngine.calculate_constraints self nhc env = Ok (st, self')
    /\ match ConstraintEngine.last_state (ConstraintEngine.history self) with
       | Some previous =>
           let dt := elapsed_hours nhc previous in
           (0 < dt ->
            ConstraintState.dI_dt st
            == (ConstraintState.I st - ConstraintState.I previous) / dt
            /\ ConstraintState.dR_dt st
               == (ConstraintState.R st - ConstraintState.R previous) / dt
            /\ ConstraintState.dS_dt st
               == (ConstraintState.S st - ConstraintState.S previous) / dt
            /\ ConstraintState.dL_dt st
               == (ConstraintState.L st - ConstraintState.L previous) / dt)
           /\ (dt <= 0 ->
               ConstraintState.dI_dt st == 0 /\ ConstraintState.dR_dt st == 0
               /\ ConstraintState.dS_dt st == 0 /\ ConstraintState.dL_dt st == 0)
       | None =>
           ConstraintState.dI_dt st == 0 /\ ConstraintState.dR_dt st == 0
           /\ ConstraintState.dS_dt st == 0 /\ ConstraintState.dL_dt st == 0
       end.
Proof.
  intros HPI.
  destruct (calculate_constraints_total self nhc env HPI) as [st [self' E]].
  destruct (calculate_constraints_inv self nhc env st self' E)
    as [raw_I [_ [_ [_ [_ [_ [Hd _]]]]]]].
  exists st, self'. split; [exact E |].
  destruct (ConstraintEngine.last_state (ConstraintEngine.history self)) as [p |].
  - cbv zeta. destruct (Qltb_reflect 0 (elapsed_hours nhc p)) as [Hpos | Hneg];
      apply pair4_eq in Hd; destruct Hd as [-> [-> [-> ->]]]; split; intros Hdt.
    + repeat split; reflexivity.
    + exfalso. lra.
    + contradiction.
    + repeat split; reflexivity.
  - apply pair4_eq in Hd. destruct Hd as [-> [-> [-> ->]]]. repeat split; reflexivity.
Qed.

Lemma rates_of_change_witness :
  exists st : ConstraintState.t,
    match ConstraintEngine.last_state (ConstraintEngine.history engine_after_sample) with
    | Some previous =>
        elapsed_hours later_advisory previous == 12
        /\ ConstraintState.dI_dt st
           == (ConstraintState.I st - ConstraintState.I previous) / 12
    | None => ConstraintState.dI_dt st == 0
    end.
Proof.
  destruct (rates_of_change engine_after_sample later_advisory sample_environment)
    as [st [self' [_ H]]].
  - cbn. intros H. discriminate H.
  - exists st.
    destruct (ConstraintEngine.last_state (ConstraintEngine.history engine_after_sample))
      as [p |] eqn:E; [| exact (proj1 H)].
    assert (elapsed_hours later_advisory p == 12) as Hdt.
    { vm_compute in E. injection E as <-. vm_compute. reflexivity. }
    split; [exact Hdt |].
    cbv zeta in H. destruct H as [H _].
    rewrite <- Hdt. apply H. rewrite Hdt. reflexivity.
Defined.

(* ======================================================================== *)
(** * Input validation                                                        *)
(* ======================================================================== *)

Lemma clamp_above (lo hi x : Q) :
  lo <= hi -> hi <= x -> py_max lo (py_min hi x) == hi.
Proof. intros H1 H2. unfold py_max, py_min. qcase; lra. Qed.

(** A quotient of numbers of opposite signs is not positive. *)
Lemma Qdiv_opposite_signs (x y : Q) :
  (0 <= x /\ y < 0) \/ (x < 0 /\ 0 < y) -> x / y <= 0.
Proof.
  intros [[Hx Hy] | [Hx Hy]].
  - setoid_replace (x / y) with (- (x / - y)) by (field; lra).
    assert (0 <= x / - y) by (apply Qle_shift_div_l; lra). lra.
  - setoid_replace (x / y) with (- (- x / y)) by (field; lra).
    assert (0 <= - x / y) by (apply Qle_shift_div_l; lra). lra.
Qed.

(** C1 (as amended). [calculate_constraints] validates nothing. It fails
    only when the potential intensity is 0, and then with the division
    error; under any other potential intensity, negative ones included, and
    whatever the signs of intensity and pressure, it returns a state, the
    raw indices clamped into their ranges; when intensity and potential
    intensity have opposite signs the raw headroom is the ceiling 0.95. *)
Theorem calculate_constraints_validates_nothing
  (self : ConstraintEngine.t) (nhc : NHCAdvisory.t) (env : EnvironmentalData.t) :
  let PI := EnvironmentalData.potential_intensity env in
  let intensity := NHCAdvisory.current_intensity nhc in
  (PI == 0 ->
   ConstraintEngine.calculate_constraints self nhc env = Raise ZeroDivisionError)
  /\ (~ PI == 0 ->
      exists (st : ConstraintState.t) (self' : ConstraintEngine.t) (raw_I : Q),
        ConstraintEngine.calculate_constraints self nhc env = Ok (st, self')
        /\ ConstraintEngine.I_raw nhc env = Ok raw_I
        /\ 0.05 <= raw_I <= 0.95
        /\ 0.1 <= ConstraintEngine.R_raw env <= 0.95
        /\ 0.05 <= ConstraintEngine.S_raw nhc env <= 0.95
        /\ ((0 <= intensity /\ PI < 0) \/ (intensity < 0 /\ 0 < PI) -> raw_I == 0.95)).
Proof.
  intros PI intensity. split.
  - apply calculate_constraints_raise.
  - intros HPI.
    destruct (calculate_constraints_total self nhc env HPI) as [st [self' E]].
    exists st, self'. eexists.
    split; [exact E | split; [apply (I_raw_nonzero nhc env HPI) |]].
    split; [apply clamp_range; lra |].
    split; [apply R_raw_range | split; [apply S_raw_range |]].
    intros Hsigns. apply clamp_above; [lra |].
    pose proof (Qdiv_opposite_signs _ _ Hsigns) as Hq.
    fold PI intensity in Hq |- *. lra.
Qed.

Lemma calculate_constraints_validates_nothing_witness :
  ConstraintEngine.calculate_constraints
    ConstraintEngine.__init__ sample_advisory (environment_with 0)
  = Raise ZeroDivisionError
  /\ exists (st : ConstraintState.t) (self' : ConstraintEngine.t),
       ConstraintEngine.calculate_constraints
         ConstraintEngine.__init__ sample_advisory (environment_with (-150))
       = Ok (st, self').
Proof.
  split.
  - apply (calculate_constraints_validates_nothing
             ConstraintEngine.__init__ sample_advisory (environment_with 0)).
    reflexivity.
  - destruct (calculate_constraints_validates_nothing
                ConstraintEngine.__init__ sample_advisory (environment_with (-150)))
      as [_ H].
    destruct H as [st [self' [raw_I [E _]]]].
    + cbn. intros H. discriminate H.
    + exists st, self'. exact E.
Defined.

(** C1 (as stated) fails: a negative potential intensity, a negative
    intensity and a negative pressure each go through; the call returns a
    state, with I clamped to 0.95 in the first two cases and the pressure
    score clamped to 0 in the third. *)
Lemma calculate_constraints_invalid_input_counterexample :
  (exists (st : ConstraintState.t) (self' : ConstraintEngine.t),
     ConstraintEngine.calculate_constraints
       ConstraintEngine.__init__ (advisory_with 45 (Some 998)) (environment_with (-150))
     = Ok (st, self')
     /\ ConstraintState.I st == 0.95)
  /\ (exists (st : ConstraintState.t) (self' : ConstraintEngine.t),
        ConstraintEngine.calculate_constraints
          ConstraintEngine.__init__ (advisory_with (-45) (Some 998)) (environment_with 150)
        = Ok (st, self')
        /\ ConstraintState.I st == 0.95)
  /\ (exists (st : ConstraintState.t) (self' : ConstraintEngine.t),
        ConstraintEngine.calculate_constraints
          ConstraintEngine.__init__ (advisory_with 45 (Some (-998))) (environment_with 150)
        = Ok (st, self')
        /\ ConstraintEngine.pressure_score (advisory_with 45 (Some (-998))) == 0
        /\ 0.05 <= ConstraintState.S st <= 0.95).
Proof.
  split; [| split]; eexists; eexists; (split; [vm_compute; reflexivity |]).
  - vm_compute. reflexivity.
  - vm_compute. reflexivity.
  - split; [vm_compute; reflexivity |]. split; vm_compute; discriminate.
Qed.

(* ======================================================================== *)
(** * Advisories without a pressure                                           *)
(* ======================================================================== *)

(** C10. For an advisory whose pressure is absent, [generate_insight] fails:
    the NHC summary formats the pressure unconditionally, which raises on
    [None], whatever the state and the environment.  The engine accepts the
    same advisory: the pressure score is the neutral 0.5 and
    [calculate_constraints] returns a state under any non-zero potential
    intensity. *)
Theorem generate_insight_requires_pressure
  (self : ConstraintEngine.t) (nhc : NHCAdvisory.t)
  (constraints : ConstraintState.t) (env : EnvironmentalData.t) :
  NHCAdvisory.current_pressure nhc = None ->
  InsightGenerator._summarize_nhc nhc = Raise TypeError
  /\ InsightGenerator.generate_insight nhc constraints env = Raise TypeError
  /\ ConstraintEngine.pressure_score nhc = 0.5
  /\ (~ EnvironmentalData.potential_intensity env == 0 ->
      exists (st : ConstraintState.t) (self' : ConstraintEngine.t),
        ConstraintEngine.calculate_constraints self nhc env = Ok (st, self')).
Proof.
  intros Hnone.
  assert (InsightGenerator._summarize_nhc nhc = Raise TypeError) as Hsum.
  { unfold InsightGenerator._summarize_nhc. rewrite Hnone. reflexivity. }
  split; [exact Hsum |]. split; [| split].
  - unfold InsightGenerator.generate_insight. rewrite Hsum. reflexivity.
  - unfold ConstraintEngine.pressure_score. rewrite Hnone. reflexivity.
  - apply calculate_constraints_total.
Qed.

Lemma generate_insight_requires_pressure_witness :
  (exists (st : ConstraintState.t) (self' : ConstraintEngine.t),
     ConstraintEngine.calculate_constraints
       ConstraintEngine.__init__ (advisory_with 45 None) sample_environment
     = Ok (st, self')
     /\ InsightGenerator.generate_insight (advisory_with 45 None) st sample_environment
        = Raise TypeError).
Proof.
  destruct (calculate_constraints_total ConstraintEngine.__init__
              (advisory_with 45 None) sample_environment) as [st [self' E]].
  - cbn. intros H. discriminate H.
  - exists st, self'. split; [exact E |].
    apply (generate_insight_requires_pressure ConstraintEngine.__init__
             (advisory_with 45 None) st sample_environment eq_refl).
Defined.

(** With a pressure the same advisory yields an insight. *)
Lemma generate_insight_with_pressure :
  exists (st : ConstraintState.t) (self' : ConstraintEngine.t) (i : DiagnosticInsight.t),
    ConstraintEngine.calculate_constraints
      ConstraintEngine.__init__ sample_advisory sample_environment
    = Ok (st, self')
    /\ InsightGenerator.generate_insight sample_advisory st sample_environment = Ok i
    /\ DiagnosticInsight.nhc_summary i
       = "TROPICAL STORM with 45 kt winds (998 mb), moving NW at 12 kt.".
Proof.
  do 3 eexists. split; [vm_compute; reflexivity |].
  split; [vm_compute; reflexivity | reflexivity].
Qed.

(* ======================================================================== *)
(** * Bounds of the indices                                                   *)
(* ======================================================================== *)

Lemma product_bounds (x y z : Q) :
  0.05 <= x <= 0.95 -> 0.1 <= y <= 0.95 -> 0.05 <= z <= 0.95 ->
  0.05 * 0.1 * 0.05 <= x * y * z <= 0.95 * 0.95 * 0.95.
Proof.
  intros Hx Hy Hz.
  assert (0.05 * 0.1 <= x * y <= 0.95 * 0.95) as Hxy.
  { split; apply Qmult_le_compat_nonneg; lra. }
  split; apply Qmult_le_compat_nonneg; lra.
Qed.

Lemma last_state_In (h : list ConstraintState.t) (p : ConstraintState.t) :
  ConstraintEngine.last_state h = Some p -> In p h.
Proof.
  induction h as [| a [| b r] IH]; cbn [ConstraintEngine.last_state].
  - discriminate.
  - intros E. injection E as ->. now left.
  - intros E. right. apply IH. exact E.
Qed.

Lemma Forall_tl {A : Type} (P : A -> Prop) (l : list A) :
  Forall P l -> Forall P (tl l).
Proof. intros H. destruct H; [constructor | assumption]. Qed.

Lemma stored_Forall (P : ConstraintState.t -> Prop)
  (self : ConstraintEngine.t) (st : ConstraintState.t) :
  Forall P (ConstraintEngine.history self) -> P st -> Forall P (stored self st).
Proof.
  intros Hh Hst. unfold stored.
  assert (Forall P (ConstraintEngine.history self ++ [st])) as H.
  { apply Forall_app. split; [assumption | now constructor]. }
  destruct (_ <? _)%nat; [now apply Forall_tl | assumption].
Qed.

(** One call preserves the ranges: the raw values are clamped, and the
    smoothing against an in-range previous state is a convex combination. *)
Lemma calculate_constraints_in_range
  (self self' : ConstraintEngine.t) (nhc : NHCAdvisory.t) (env : EnvironmentalData.t)
  (st : ConstraintState.t) :
  Forall in_range (ConstraintEngine.history self) ->
  ConstraintEngine.calculate_constraints self nhc env = Ok (st, self') ->
  in_range st /\ admissibility_bounded st
  /\ Forall in_range (ConstraintEngine.history self').
Proof.
  intros Hh E.
  destruct (calculate_constraints_inv self nhc env st self' E)
    as [raw_I [Hraw [HI [HR [HS [HL [_ [_ [Hhist _]]]]]]]]].
  pose proof (I_raw_range nhc env raw_I Hraw) as BI.
  pose proof (R_raw_range env) as BR.
  pose proof (S_raw_range nhc env) as BS.
  assert (in_range st) as Hst.
  { unfold in_range. rewrite HI, HR, HS.
    destruct (ConstraintEngine.last_state (ConstraintEngine.history self)) as [p |] eqn:Ep.
    - apply last_state_In in Ep.
      rewrite Forall_forall in Hh. destruct (Hh p Ep) as [? [? ?]].
      repeat split; lra.
    - tauto. }
  split; [exact Hst | split].
  - destruct Hst as [? [? ?]]. unfold admissibility_bounded. rewrite HL.
    pose proof (product_bounds (ConstraintState.I st) (ConstraintState.R st)
                  (ConstraintState.S st)) as Hp.
    split; [reflexivity |]. split; [tauto |]. split; [| tauto].
    apply Qle_trans with (0.05 * 0.1 * 0.05); [unfold Qle; cbn; lia | tauto].
  - rewrite Hhist. now apply stored_Forall.
Qed.

(** A run returns when no potential intensity in it is zero. *)
Lemma feed_total (inputs : list Input) :
  forall self : ConstraintEngine.t,
    Forall (fun i : Input => ~ EnvironmentalData.potential_intensity (snd i) == 0) inputs ->
    exists (states : list ConstraintState.t) (self' : ConstraintEngine.t),
      feed self inputs = Ok (states, self').
Proof.
  induction inputs as [| [nhc env] rest IH]; intros self H.
  - exists [], self. reflexivity.
  - inversion H as [| i l HPI Hrest]; subst. cbn [snd] in HPI.
    destruct (calculate_constraints_total self nhc env HPI) as [st [self1 E]].
    destruct (IH self1 Hrest) as [states [self' Efeed]].
    exists (st :: states), self'. cbn [feed]. rewrite E. cbn [bind snd fst].
    rewrite Efeed. reflexivity.
Qed.

Lemma sample_run_nonzero (n : nat) :
  Forall (fun i : Input => ~ EnvironmentalData.potential_intensity (snd i) == 0)
         (sample_run n).
Proof.
  apply Forall_forall. intros i Hi. unfold sample_run in Hi.
  apply in_map_iff in Hi. destruct Hi as [k [<- _]]. cbn. intros H. discriminate H.
Qed.

(** In exact arithmetic the ranges are an invariant of the engine: for every
    sequence of valid inputs fed to a fresh engine, every call returns, and
    every state produced has I in [0.05, 0.95], R in [0.1, 0.95], S in
    [0.05, 0.95] and L = I R S, which lies in [0.05^3, 0.95^3] (and above the
    product 0.05 * 0.1 * 0.05 of the floors); the states kept in the history
    are in range too.  The rounding of binary64 breaks the invariant at the
    floors, see [Binary64] below. *)
Theorem indices_stay_in_range (inputs : list Input) :
  Forall valid_input inputs ->
  exists (states : list ConstraintState.t) (self' : ConstraintEngine.t),
    feed ConstraintEngine.__init__ inputs = Ok (states, self')
    /\ Forall (fun s => in_range s /\ admissibility_bounded s) states
    /\ Forall in_range (ConstraintEngine.history self').
Proof.
  intros Hvalid.
  assert (Forall in_range (ConstraintEngine.history ConstraintEngine.__init__)) as Hinit
    by constructor.
  revert Hvalid Hinit. generalize ConstraintEngine.__init__ as self.
  induction inputs as [| [nhc env] rest IH]; intros self Hvalid Hself.
  - exists [], self. repeat split; [constructor | assumption].
  - inversion Hvalid as [| i l [HPI _] Hrest]; subst. cbn [fst snd] in HPI.
    destruct (calculate_constraints_total self nhc env) as [st [self1 E]]; [lra |].
    destruct (calculate_constraints_in_range self self1 nhc env st Hself E)
      as [Hst [HL Hself1]].
    destruct (IH self1 Hrest Hself1) as [states [self' [Efeed [Hstates Hself']]]].
    exists (st :: states), self'. cbn [feed]. rewrite E. cbn [bind snd fst].
    rewrite Efeed. cbn [bind snd fst].
    repeat split; [constructor; [split |] | ]; assumption.
Qed.

Lemma indices_stay_in_range_witness :
  Forall valid_input
    [(sample_advisory, sample_environment); (later_advisory, sample_environment)]
  /\ exists (states : list ConstraintState.t) (self' : ConstraintEngine.t),
       feed ConstraintEngine.__init__
         [(sample_advisory, sample_environment); (later_advisory, sample_environment)]
       = Ok (states, self')
       /\ Forall (fun s => in_range s /\ admissibility_bounded s) states
       /\ Forall in_range (ConstraintEngine.history self').
Proof.
  assert (Forall valid_input
            [(sample_advisory, sample_environment); (later_advisory, sample_environment)])
    as Hvalid.
  { repeat constructor; cbn; lra. }
  split; [exact Hvalid | exact (indices_stay_in_range _ Hvalid)].
Defined.

(* ======================================================================== *)
(** * Bounds of the indices in binary64                                       *)
(* ======================================================================== *)

Section Binary64Bounds.

Import Floats.
#[local] Set Warnings "-inexact-float".
#[local] Open Scope float_scope.









End Binary64Bounds.

(* ======================================================================== *)
(** * History                                                                 *)
(* ======================================================================== *)

Lemma keep_last_short {A : Type} (n : nat) (l : list A) :
  (List.length l <= n)%nat -> keep_last n l = l.
Proof.
  intros H. unfold keep_last.
  replace (List.length l - n)%nat with 0%nat by lia. reflexivity.
Qed.

Lemma keep_last_length {A : Type} (n : nat) (l : list A) :
  List.length (keep_last n l) = Nat.min (List.length l) n.
Proof. unfold keep_last. rewrite length_skipn. lia. Qed.

Lemma tl_skipn {A : Type} (k : nat) (l : list A) : tl (skipn k l) = skipn (S k) l.
Proof.
  revert l. induction k as [| k IH]; intros [| a l]; cbn; try reflexivity.
  apply IH.
Qed.

(** Appending to the last [n] elements and dropping the oldest one when the
    length passes [n] keeps the last [n] elements of the whole sequence. *)
Lemma keep_last_snoc {A : Type} (n : nat) (past : list A) (x : A) :
  (let h := keep_last n past ++ [x] in
   if (n <? List.length h)%nat then tl h else h)
  = keep_last n (past ++ [x]).
Proof.
  cbv zeta. rewrite length_app, keep_last_length. cbn [List.length].
  destruct (Nat.ltb_spec n (Nat.min (List.length past) n + 1)) as [Hlt | Hge].
  - assert (n <= List.length past)%nat as Hn by lia.
    unfold keep_last. rewrite length_app. cbn [List.length].
    rewrite skipn_app.
    destruct n as [| n].
    + rewrite Nat.sub_0_r, skipn_all, (skipn_all2 past), (skipn_all2 [x]);
        [reflexivity | cbn; lia | lia].
    + replace (List.length past + 1 - S n - List.length past)%nat with 0%nat by lia.
      cbn [skipn].
      replace (List.length past + 1 - S n)%nat with (S (List.length past - S n)) by lia.
      rewrite <- tl_skipn.
      destruct (skipn (List.length past - S n) past) as [| a r] eqn:E; [| reflexivity].
      apply (f_equal (@List.length A)) in E. rewrite length_skipn in E. cbn in E. lia.
  - assert (List.length past < n)%nat as Hn by lia.
    rewrite !keep_last_short; [reflexivity | | lia].
    rewrite length_app. cbn [List.length]. lia.
Qed.

(** The history of an engine fed a sequence of inputs holds the last
    [history_limit] states of the whole run. *)
Lemma feed_history (inputs : list Input) :
  forall (self self' : ConstraintEngine.t) (past states : list ConstraintState.t),
    ConstraintEngine.history self = keep_last (ConstraintEngine.history_limit self) past ->
    feed self inputs = Ok (states, self') ->
    List.length states = List.length inputs
    /\ ConstraintEngine.history_limit self' = ConstraintEngine.history_limit self
    /\ ConstraintEngine.history self'
       = keep_last (ConstraintEngine.history_limit self) (past ++ states).
Proof.
  induction inputs as [| [nhc env] rest IH]; intros self self' past states Hpast E.
  - cbn in E. injection E as <- <-. rewrite app_nil_r. auto.
  - cbn [feed] in E.
    destruct (ConstraintEngine.calculate_constraints self nhc env)
      as [[st self1] |] eqn:E1; cbn [bind snd fst] in E; [| discriminate].
    destruct (feed self1 rest) as [[states1 self2] |] eqn:E2;
      cbn [bind snd fst] in E; [| discriminate].
    injection E as <- <-.
    destruct (calculate_constraints_inv self nhc env st self1 E1)
      as [_ [_ [_ [_ [_ [_ [_ [_ [Hhist Hlimit]]]]]]]]].
    assert (ConstraintEngine.history self1
            = keep_last (ConstraintEngine.history_limit self1) (past ++ [st])) as Hpast1.
    { rewrite Hhist, Hlimit. unfold stored. rewrite Hpast. apply keep_last_snoc. }
    destruct (IH self1 self2 (past ++ [st])%list states1 Hpast1 E2) as [Hlen [Hlim Hh]].
    cbn [List.length]. rewrite Hlen, Hlim, Hh, Hlimit, <- app_assoc. auto.
Qed.

(** C8. The history of an engine is a FIFO of at most 48 states.  A
    returning call stores exactly its state at the end of the history, and
    drops the first state when 48 were held.  After any sequence of inputs
    fed to a fresh engine, one state was produced per input and the history
    holds the last 48 of them, in the order produced; after 49 inputs it is
    the states produced without the first one. *)
Theorem history_bounded_fifo
  (inputs : list Input) (states : list ConstraintState.t) (self' : ConstraintEngine.t) :
  feed ConstraintEngine.__init__ inputs = Ok (states, self') ->
  List.length states = List.length inputs
  /\ ConstraintEngine.history self' = skipn (List.length states - 48) states
  /\ (List.length (ConstraintEngine.history self') <= 48)%nat
  /\ (List.length inputs = 49%nat ->
      ConstraintEngine.history self' = tl states
      /\ List.length (ConstraintEngine.history self') = 48%nat)
  /\ (forall (nhc : NHCAdvisory.t) (env : EnvironmentalData.t)
             (st : ConstraintState.t) (self'' : ConstraintEngine.t),
        ConstraintEngine.calculate_constraints self' nhc env = Ok (st, self'') ->
        ConstraintEngine.history self''
        = if (List.length (ConstraintEngine.history self') <? 48)%nat
          then ConstraintEngine.history self' ++ [st]
          else tl (ConstraintEngine.history self') ++ [st]).
Proof.
  intros E.
  destruct (feed_history inputs ConstraintEngine.__init__ self' [] states eq_refl E)
    as [Hlen [Hlim Hh]].
  cbn [ConstraintEngine.__init__ ConstraintEngine.history_limit app] in Hlim, Hh.
  fold (keep_last 48 states).
  assert (List.length (ConstraintEngine.history self') = Nat.min (List.length states) 48)
    as Hl by (rewrite Hh; apply keep_last_length).
  split; [exact Hlen | split; [exact Hh | split; [lia | split]]].
  - intros H49. split; [| lia].
    rewrite Hh. unfold keep_last. rewrite Hlen, H49. reflexivity.
  - intros nhc env st self'' E1.
    destruct (calculate_constraints_inv self' nhc env st self'' E1)
      as [_ [_ [_ [_ [_ [_ [_ [_ [Hhist _]]]]]]]]].
    rewrite Hhist. unfold stored. rewrite Hlim, length_app. cbn [List.length].
    destruct (Nat.ltb_spec (List.length (ConstraintEngine.history self')) 48) as [Hlt | Hge].
    + destruct (Nat.ltb_spec 48 (List.length (ConstraintEngine.history self') + 1));
        [lia | reflexivity].
    + destruct (Nat.ltb_spec 48 (List.length (ConstraintEngine.history self') + 1));
        [| lia].
      destruct (ConstraintEngine.history self'); [cbn in Hge; lia | reflexivity].
Qed.

Lemma history_bounded_fifo_witness :
  exists (states : list ConstraintState.t) (self' : ConstraintEngine.t),
    feed ConstraintEngine.__init__ (sample_run 49) = Ok (states, self')
    /\ List.length states = 49%nat
    /\ ConstraintEngine.history self' = tl states
    /\ List.length (ConstraintEngine.history self') = 48%nat.
Proof.
  destruct (feed_total (sample_run 49) ConstraintEngine.__init__ (sample_run_nonzero 49))
    as [states [self' E]].
  exists states, self'.
  destruct (history_bounded_fifo (sample_run 49) states self' E)
    as [Hlen [_ [_ [H49 _]]]].
  split; [exact E |]. split; [rewrite Hlen; reflexivity |].
  apply H49. reflexivity.
Defined.

(* ======================================================================== *)
(** * Environmental estimates                                                 *)
(* ======================================================================== *)

Lemma Qleb_false (x y : Q) : (x <=? y) = false <-> y < x.
Proof.
  rewrite <- not_true_iff_false, Qle_bool_iff.
  split; [apply Qnot_le_lt | apply Qlt_not_le].
Qed.

Ltac no_comparison t :=
  lazymatch t with
  | context [Qltb _ _] => fail
  | context [Qle_bool _ _] => fail
  | _ => idtac
  end.

(** Case analysis on the comparisons of the goal, strict or not, innermost
    first. *)
Ltac qsplit :=
  repeat match goal with
  | |- context [Qltb ?a ?b] =>
      no_comparison a; no_comparison b;
      let E := fresh "E" in
      destruct (Qltb a b) eqn:E;
      [apply Qltb_true in E | apply Qltb_false in E];
      cbn [andb orb negb]
  | |- context [Qle_bool ?a ?b] =>
      no_comparison a; no_comparison b;
      let E := fresh "E" in
      destruct (Qle_bool a b) eqn:E;
      [apply Qle_bool_iff in E | apply Qleb_false in E];
      cbn [andb orb negb]
  end.

Lemma estimate_sst_bounds (month : Z) (lat lon : Q) :
  24 <= EnvironmentalEngine._estimate_sst month lat lon <= 29.
Proof.
  unfold EnvironmentalEngine._estimate_sst, py_max, py_min. cbv zeta.
  destruct (mem_Z month [1; 2; 3]%Z), (mem_Z month [4; 5]%Z),
    (mem_Z month [9; 10; 11]%Z); qsplit; lra.
Qed.

Lemma estimate_shear_bounds (lat lon : Q) :
  8 <= EnvironmentalEngine._estimate_shear lat lon <= 50.
Proof.
  unfold EnvironmentalEngine._estimate_shear, py_max, py_min. cbv zeta.
  pose proof (Qabs_nonneg (lat - 20)) as Habs.
  qsplit; lra.
Qed.

Lemma potential_intensity_bounds (sst lat : Q) :
  70 <= EnvironmentalEngine._calculate_potential_intensity sst lat <= 175.
Proof.
  unfold EnvironmentalEngine._calculate_potential_intensity, py_max, py_min. cbv zeta.
  qsplit; lra.
Qed.

(** X1. The potential intensity lies in [70, 175] for every sea surface
    temperature and latitude, so it is never zero or negative, and at a
    fixed latitude it never decreases when the sea surface temperature
    rises. *)
Theorem potential_intensity_range_monotonic (sst1 sst2 lat : Q) :
  sst1 <= sst2 ->
  70 <= EnvironmentalEngine._calculate_potential_intensity sst1 lat
  /\ EnvironmentalEngine._calculate_potential_intensity sst1 lat
     <= EnvironmentalEngine._calculate_potential_intensity sst2 lat
  /\ EnvironmentalEngine._calculate_potential_intensity sst2 lat <= 175.
Proof.
  intros Hle.
  pose proof (potential_intensity_bounds sst1 lat) as [Hlow1 _].
  pose proof (potential_intensity_bounds sst2 lat) as [Hlow2 Hhigh2].
  split; [exact Hlow1 | split; [| exact Hhigh2]].
  revert Hlow2. clear Hlow1 Hhigh2.
  unfold EnvironmentalEngine._calculate_potential_intensity.
  destruct (Qltb_reflect sst1 26.0) as [H1 | H1].
  - intros Hlow. apply (Qle_trans _ 70); [lra | exact Hlow].
  - intros _. destruct (Qltb_reflect sst2 26.0) as [H2 | H2]; [exfalso; lra |].
    cbv zeta. unfold py_max, py_min.
    destruct (lat <? 15); [| destruct ((15 <=? lat) && (lat <? 25));
      [| destruct ((25 <=? lat) && (lat <? 30));
        [| destruct ((30 <=? lat) && (lat <? 35))]]];
      qsplit; lra.
Qed.

Lemma potential_intensity_range_monotonic_witness :
  70 <= EnvironmentalEngine._calculate_potential_intensity 27 20
  /\ EnvironmentalEngine._calculate_potential_intensity 27 20
     <= EnvironmentalEngine._calculate_potential_intensity 29 20
  /\ EnvironmentalEngine._calculate_potential_intensity 29 20 <= 175.
Proof.
  apply (potential_intensity_range_monotonic 27 29 20). lra.
Defined.

(** X2. The environment estimated for any month and position has a sea
    surface temperature in [24, 29], a wind shear in [8, 50] and a potential
    intensity in [70, 129]; it keeps the latitude it was asked for. *)
Theorem fetch_environmental_data_range (month : Z) (lat lon : Q) :
  let env := EnvironmentalEngine.fetch_environmental_data month lat lon in
  24 <= EnvironmentalData.sst env <= 29
  /\ 8 <= EnvironmentalData.wind_shear env <= 50
  /\ 70 <= EnvironmentalData.potential_intensity env <= 129
  /\ EnvironmentalData.latitude env = lat.
Proof.
  cbv zeta. unfold EnvironmentalEngine.fetch_environmental_data.
  cbn [EnvironmentalData.sst EnvironmentalData.wind_shear
       EnvironmentalData.potential_intensity EnvironmentalData.latitude].
  pose proof (estimate_sst_bounds month lat lon) as Hsst.
  split; [exact Hsst |]. split; [apply estimate_shear_bounds |].
  split; [| reflexivity].
  split; [apply potential_intensity_bounds |].
  generalize dependent (EnvironmentalEngine._estimate_sst month lat lon).
  intros sst Hsst.
  unfold EnvironmentalEngine._calculate_potential_intensity, py_max, py_min. cbv zeta.
  qsplit; lra.
Qed.

(* ======================================================================== *)
(** * The states the engine produces                                          *)
(* ======================================================================== *)

(** The diagnostic and context fields of a returned state. *)
Lemma calculate_constraints_fields
  (self self' : ConstraintEngine.t) (nhc : NHCAdvisory.t) (env : EnvironmentalData.t)
  (st : ConstraintState.t) :
  ConstraintEngine.calculate_constraints self nhc env = Ok (st, self') ->
  ConstraintState.gradient_hazard st = (ConstraintState.dL_dt st <? -0.02)
  /\ ConstraintState.refusal_risk st
     = ConstraintEngine._assess_refusal_risk
         (ConstraintState.L st) (ConstraintState.S st) (ConstraintState.dS_dt st)
  /\ ConstraintState.regime st
     = ConstraintEngine._identify_regime
         (ConstraintState.I st) (ConstraintState.R st) (ConstraintState.S st)
         (ConstraintState.dI_dt st) (ConstraintState.dR_dt st) (ConstraintState.dS_dt st)
  /\ ConstraintState.constraint_summary st
     = ConstraintEngine._generate_summary
         (ConstraintState.I st) (ConstraintState.R st) (ConstraintState.S st)
         (ConstraintState.regime st)
  /\ ConstraintState.storm_name st = NHCAdvisory.storm_name nhc
  /\ ConstraintState.current_intensity st = NHCAdvisory.current_intensity nhc
  /\ ConstraintState.nhc_forecast_change st = 0.0.
Proof.
  unfold ConstraintEngine.calculate_constraints.
  destruct (ConstraintEngine.I_raw nhc env) as [iraw |]; cbn [bind]; [| discriminate].
  destruct (ConstraintEngine.last_state (ConstraintEngine.history self)) as [p |].
  - cbv zeta. destruct (total_seconds _ _ / 3600 >? 0);
      intros E; injection E as <- <-; cbn; repeat split; reflexivity.
  - intros E; injection E as <- <-; cbn; repeat split; reflexivity.
Qed.

(** The rates of a returned state when no time has elapsed or no previous
    state exists. *)
Lemma calculate_constraints_rates_suppressed
  (self self' : ConstraintEngine.t) (nhc : NHCAdvisory.t) (env : EnvironmentalData.t)
  (st : ConstraintState.t) :
  ConstraintEngine.calculate_constraints self nhc env = Ok (st, self') ->
  match ConstraintEngine.last_state (ConstraintEngine.history self) with
  | Some previous => elapsed_hours nhc previous <= 0
  | None => True
  end ->
  ConstraintState.dI_dt st = 0.0 /\ ConstraintState.dR_dt st = 0.0
  /\ ConstraintState.dS_dt st = 0.0 /\ ConstraintState.dL_dt st = 0.0.
Proof.
  intros E Hprev.
  destruct (calculate_constraints_inv self nhc env st self' E)
    as [_ [_ [_ [_ [_ [_ [Hd _]]]]]]].
  destruct (ConstraintEngine.last_state (ConstraintEngine.history self)) as [p |].
  - destruct (Qltb_reflect 0 (elapsed_hours nhc p)) as [Hpos | _]; [exfalso; lra |].
    now apply pair4_eq in Hd.
  - now apply pair4_eq in Hd.
Qed.

(** X3. A state returned by [calculate_constraints] is consistent with
    itself: the gradient hazard flag is set exactly when dL/dt < -0.02, the
    risk level and the regime are those of its own indices and rates, the
    summary is generated from its own indices and regime; it carries the
    timestamp, storm name and intensity of the advisory, and its forecast
    change is always 0 (the forecast positions are not used). *)
Theorem returned_state_consistent
  (self self' : ConstraintEngine.t) (nhc : NHCAdvisory.t) (env : EnvironmentalData.t)
  (st : ConstraintState.t) :
  ConstraintEngine.calculate_constraints self nhc env = Ok (st, self') ->
  (ConstraintState.gradient_hazard st = true <-> ConstraintState.dL_dt st < -0.02)
  /\ ConstraintState.refusal_risk st
     = ConstraintEngine._assess_refusal_risk
         (ConstraintState.L st) (ConstraintState.S st) (ConstraintState.dS_dt st)
  /\ ConstraintState.regime st
     = ConstraintEngine._identify_regime
         (ConstraintState.I st) (ConstraintState.R st) (ConstraintState.S st)
         (ConstraintState.dI_dt st) (ConstraintState.dR_dt st) (ConstraintState.dS_dt st)
  /\ ConstraintState.constraint_summary st
     = ConstraintEngine._generate_summary
         (ConstraintState.I st) (ConstraintState.R st) (ConstraintState.S st)
         (ConstraintState.regime st)
  /\ ConstraintState.timestamp st = NHCAdvisory.advisory_time nhc
  /\ ConstraintState.storm_name st = NHCAdvisory.storm_name nhc
  /\ ConstraintState.current_intensity st = NHCAdvisory.current_intensity nhc
  /\ ConstraintState.nhc_forecast_change st == 0.
Proof.
  intros E.
  destruct (calculate_constraints_fields self self' nhc env st E)
    as [Hg [Hrisk [Hreg [Hsum [Hname [Hint Hfc]]]]]].
  destruct (calculate_constraints_inv self nhc env st self' E)
    as [_ [_ [_ [_ [_ [_ [_ [Hts _]]]]]]]].
  rewrite Hg, Qltb_true, Hfc. repeat split; try assumption; try reflexivity; tauto.
Qed.

Lemma returned_state_consistent_witness :
  exists (st : ConstraintState.t) (self' : ConstraintEngine.t),
    ConstraintEngine.calculate_constraints
      ConstraintEngine.__init__ sample_advisory sample_environment = Ok (st, self')
    /\ ConstraintState.current_intensity st = 45
    /\ ConstraintState.nhc_forecast_change st == 0.
Proof.
  destruct (calculate_constraints_total ConstraintEngine.__init__
              sample_advisory sample_environment) as [st [self' E]].
  - cbn. intros H. discriminate H.
  - exists st, self'. split; [exact E |].
    destruct (returned_state_consistent _ _ _ _ _ E)
      as [_ [_ [_ [_ [_ [_ [Hint Hfc]]]]]]].
    split; [exact Hint | exact Hfc].
Defined.

(** X4. On the first advisory of an engine, and whenever the elapsed time
    since the previous state is not positive, the rates are suppressed, so
    the state is never flagged as a gradient hazard, its regime is never
    RI_CANDIDATE nor DECAY (one of PEAK_LIMITED, COLLAPSE, STABLE), and its
    risk level is decided by L alone. *)
Theorem suppressed_rates_regimes
  (self self' : ConstraintEngine.t) (nhc : NHCAdvisory.t) (env : EnvironmentalData.t)
  (st : ConstraintState.t) :
  ConstraintEngine.calculate_constraints self nhc env = Ok (st, self') ->
  match ConstraintEngine.last_state (ConstraintEngine.history self) with
  | Some previous => elapsed_hours nhc previous <= 0
  | None => True
  end ->
  ConstraintState.gradient_hazard st = false
  /\ In (ConstraintState.regime st) ["PEAK_LIMITED"; "COLLAPSE"; "STABLE"]
  /\ (ConstraintState.regime st = "PEAK_LIMITED"
      <-> ConstraintState.I st < 0.35 /\ ConstraintState.S st > 0.60)
  /\ (ConstraintState.regime st = "COLLAPSE"
      <-> ~ (ConstraintState.I st < 0.35 /\ ConstraintState.S st > 0.60)
          /\ ConstraintState.S st < 0.35)
  /\ ConstraintState.refusal_risk st
     = (if ConstraintState.L st <? 0.15 then "CRITICAL"
        else if ConstraintState.L st <? 0.25 then "HIGH"
        else if ConstraintState.L st <? 0.40 then "MODERATE"
        else "LOW").
Proof.
  intros E Hprev.
  destruct (calculate_constraints_fields self self' nhc env st E)
    as [Hg [Hrisk [Hreg _]]].
  destruct (calculate_constraints_rates_suppressed self self' nhc env st E Hprev)
    as [HdI [HdR [HdS HdL]]].
  rewrite Hg, Hrisk, Hreg, HdI, HdR, HdS, HdL. clear.
  split; [reflexivity |].
  rewrite identify_regime_chain.
  unfold ConstraintEngine._assess_refusal_risk.
  change (0.0 >? 0.01) with false. change (0.0 <? -0.05) with false.
  change (0.0 <? -0.03) with false. change (0.0 <? -0.02) with false.
  cbn [andb orb]. rewrite !andb_false_r, !orb_false_r. cbn [andb orb].
  repeat qstep; repeat split; cbn [In]; try tauto; try discriminate;
    try reflexivity; intros; try lra; try (intuition lra); try (intuition discriminate).
Qed.

Lemma suppressed_rates_regimes_witness :
  exists (st : ConstraintState.t) (self' : ConstraintEngine.t),
    ConstraintEngine.calculate_constraints
      ConstraintEngine.__init__ sample_advisory sample_environment = Ok (st, self')
    /\ ConstraintState.gradient_hazard st = false
    /\ In (ConstraintState.regime st) ["PEAK_LIMITED"; "COLLAPSE"; "STABLE"].
Proof.
  destruct (calculate_constraints_total ConstraintEngine.__init__
              sample_advisory sample_environment) as [st [self' E]].
  - cbn. intros H. discriminate H.
  - exists st, self'. split; [exact E |].
    destruct (suppressed_rates_regimes _ _ _ _ _ E I) as [Hg [Hreg _]].
    split; [exact Hg | exact Hreg].
Defined.

(** X5. [calculate_constraints] reads only the time, storm name,
    classification, intensity and pressure of the advisory, and the sea
    surface temperature, shear, potential intensity and latitude of the
    environment: advisories and environments that agree on these give the
    same result, whatever their identifier, position, movement, forecast
    positions and provenance tag. *)
Theorem calculate_constraints_reads
  (self : ConstraintEngine.t) (nhc nhc' : NHCAdvisory.t) (env env' : EnvironmentalData.t) :
  NHCAdvisory.advisory_time nhc = NHCAdvisory.advisory_time nhc' ->
  NHCAdvisory.storm_name nhc = NHCAdvisory.storm_name nhc' ->
  NHCAdvisory.classification nhc = NHCAdvisory.classification nhc' ->
  NHCAdvisory.current_intensity nhc = NHCAdvisory.current_intensity nhc' ->
  NHCAdvisory.current_pressure nhc = NHCAdvisory.current_pressure nhc' ->
  EnvironmentalData.sst env = EnvironmentalData.sst env' ->
  EnvironmentalData.wind_shear env = EnvironmentalData.wind_shear env' ->
  EnvironmentalData.potential_intensity env = EnvironmentalData.potential_intensity env' ->
  EnvironmentalData.latitude env = EnvironmentalData.latitude env' ->
  ConstraintEngine.calculate_constraints self nhc env
  = ConstraintEngine.calculate_constraints self nhc' env'.
Proof.
  intros Ht Hn Hc Hi Hp Hsst Hshear HPI Hlat.
  unfold ConstraintEngine.calculate_constraints, ConstraintEngine.I_raw,
    ConstraintEngine.R_raw, ConstraintEngine.S_raw, ConstraintEngine.pressure_score.
  rewrite Ht, Hn, Hc, Hi, Hp, Hsst, Hshear, HPI, Hlat. reflexivity.
Qed.

Lemma calculate_constraints_reads_witness :
  ConstraintEngine.calculate_constraints ConstraintEngine.__init__
    sample_advisory sample_environment
  = ConstraintEngine.calculate_constraints ConstraintEngine.__init__
      relocated_advisory retagged_environment
  /\ NHCAdvisory.storm_id sample_advisory <> NHCAdvisory.storm_id relocated_advisory
  /\ NHCAdvisory.advisory_number sample_advisory
     <> NHCAdvisory.advisory_number relocated_advisory
  /\ ~ NHCAdvisory.latitude sample_advisory == NHCAdvisory.latitude relocated_advisory
  /\ ~ NHCAdvisory.longitude sample_advisory == NHCAdvisory.longitude relocated_advisory
  /\ NHCAdvisory.movement_direction sample_advisory
     <> NHCAdvisory.movement_direction relocated_advisory
  /\ ~ NHCAdvisory.movement_speed sample_advisory
       == NHCAdvisory.movement_speed relocated_advisory
  /\ NHCAdvisory.forecast_positions sample_advisory
     <> NHCAdvisory.forecast_positions relocated_advisory
  /\ EnvironmentalData.source sample_environment
     <> EnvironmentalData.source retagged_environment.
Proof.
  split.
  - apply (calculate_constraints_reads ConstraintEngine.__init__
             sample_advisory relocated_advisory sample_environment retagged_environment);
      reflexivity.
  - repeat split; intros H; discriminate H.
Defined.

(** X6. The classification score lies in [0.15, 0.95], so the raw
    structural coherence is at least 0.4 * 0.15 = 0.06: the floor 0.05 of
    its clamp never binds. *)
Theorem S_raw_above_floor (nhc : NHCAdvisory.t) (env : EnvironmentalData.t) :
  0.15 <= ConstraintEngine._classification_score (NHCAdvisory.classification nhc) <= 0.95
  /\ 0 <= ConstraintEngine.pressure_score nhc <= 1
  /\ 0.06 <= ConstraintEngine.S_raw nhc env <= 0.95.
Proof.
  assert (0.15 <= ConstraintEngine._classification_score (NHCAdvisory.classification nhc)
          <= 0.95) as Hscore.
  { unfold ConstraintEngine._classification_score.
    repeat match goal with |- context [if ?b then _ else _] => destruct b end; lra. }
  assert (0 <= ConstraintEngine.pressure_score nhc <= 1) as Hpressure.
  { unfold ConstraintEngine.pressure_score.
    destruct (NHCAdvisory.current_pressure nhc) as [p |]; [| lra].
    destruct (truthy (Some p)); [| lra].
    cbv zeta. unfold py_max, Qdiv. change (/ 30.0) with (10 # 300).
    pose proof (Qabs_nonneg (p - (1015 - NHCAdvisory.current_intensity nhc * 0.65))).
    qsplit; lra. }
  split; [exact Hscore | split; [exact Hpressure |]].
  unfold ConstraintEngine.S_raw. cbv zeta.
  set (shear_impact := py_max 0 (1.0 - EnvironmentalData.wind_shear env / 40.0)).
  assert (0 <= shear_impact) as Hshear.
  { unfold shear_impact, py_max. qsplit; lra. }
  unfold py_max, py_min. qsplit; lra.
Qed.

(** X7. The confidence takes its values in [0.5, 0.85]: the clamp to
    [0.4, 0.95] never binds. *)
Theorem calculate_confidence_range (c : ConstraintState.t) :
  0.5 <= InsightGenerator._calculate_confidence c <= 0.85
  /\ InsightGenerator._calculate_confidence c
     == 0.6
        + (if InsightGenerator.mem (ConstraintState.regime c)
                ["RI_CANDIDATE"; "PEAK_LIMITED"; "COLLAPSE"] then 0.15 else 0)
        + (if Qabs (ConstraintState.dL_dt c) >? 0.03 then 0.10 else 0)
        - (if (0.4 <? ConstraintState.L c) && (ConstraintState.L c <? 0.6)
           then 0.10 else 0).
Proof.
  unfold InsightGenerator._calculate_confidence. cbv zeta.
  destruct (InsightGenerator.mem _ _), (Qabs (ConstraintState.dL_dt c) >? 0.03),
    ((0.4 <? ConstraintState.L c) && (ConstraintState.L c <? 0.6));
    vm_compute; repeat split; discriminate.
Qed.

(** X8. The risk level is monotonic in its three arguments together:
    lowering L, S or dS/dt never lowers the level. *)
Theorem assess_refusal_risk_monotonic_all (L1 L2 S1 S2 d1 d2 : Q) :
  L1 <= L2 -> S1 <= S2 -> d1 <= d2 ->
  exists n1 n2 : nat,
    risk_rank (ConstraintEngine._assess_refusal_risk L1 S1 d1) = Some n1
    /\ risk_rank (ConstraintEngine._assess_refusal_risk L2 S2 d2) = Some n2
    /\ (n2 <= n1)%nat.
Proof.
  intros HL HS Hd. unfold ConstraintEngine._assess_refusal_risk.
  repeat qstep;
    (do 2 eexists; split; [reflexivity | split; [reflexivity |]]);
    first [lia | exfalso; lra].
Qed.

Lemma assess_refusal_risk_monotonic_all_witness :
  exists n1 n2 : nat,
    risk_rank (ConstraintEngine._assess_refusal_risk 0.30 0.20 (-0.06)) = Some n1
    /\ risk_rank (ConstraintEngine._assess_refusal_risk 0.30 0.50 0) = Some n2
    /\ (n2 <= n1)%nat.
Proof.
  apply (assess_refusal_risk_monotonic_all 0.30 0.30 0.20 0.50 (-0.06) 0); lra.
Defined.

(* ======================================================================== *)
(** * Compass directions                                                      *)
(* ======================================================================== *)

Lemma py_int_nonneg (q : Q) : 0 <= q -> py_int q = Qfloor q.
Proof.
  intros H. unfold py_int, Qfloor. destruct q as [n d]. cbn [Qnum Qden].
  apply Z.quot_div_nonneg; [| reflexivity].
  unfold Qle in H. cbn in H. lia.
Qed.

Lemma Qfloor_unique (q : Q) (k : Z) :
  inject_Z k <= q < inject_Z (k + 1) -> Qfloor q = k.
Proof.
  intros [Hlow Hhigh].
  apply Qfloor_resp_le in Hlow. rewrite Qfloor_Z in Hlow.
  assert (inject_Z (Qfloor q) < inject_Z (k + 1)) as H
    by (eapply Qle_lt_trans; [apply Qfloor_le | exact Hhigh]).
  rewrite <- Zlt_Qlt in H. lia.
Qed.

(** Truncation towards zero of a number in (-1, 1). *)
Lemma py_int_small (q : Q) : -1 < q < 1 -> py_int q = 0%Z.
Proof.
  intros [Hlow Hhigh]. unfold py_int. destruct q as [n d]. cbn [Qnum Qden].
  unfold Qlt in Hlow, Hhigh. cbn in Hlow, Hhigh.
  apply Z.quot_small_iff; [lia |]. lia.
Qed.

Lemma py_index_in_range {A : Type} (l : list A) (i : Z) :
  (0 <= i < Z.of_nat (List.length l))%Z ->
  py_index l i = nth_error l (Z.to_nat i) /\ exists x, py_index l i = Some x /\ In x l.
Proof.
  intros H. unfold py_index.
  destruct (Z.ltb_spec i 0) as [Hneg | _]; [lia |].
  split; [reflexivity |].
  destruct (nth_error l (Z.to_nat i)) as [x |] eqn:E.
  - exists x. split; [reflexivity | eapply nth_error_In; exact E].
  - apply nth_error_None in E. lia.
Qed.

(** X9. [_degrees_to_compass] never fails with an index error: for every
    bearing, negative or beyond 360 included, it returns one of the sixteen
    directions.  For a bearing within 11 degrees of 22.5 k, k from 0 to 16,
    it returns direction number k modulo 16, so that bearings around 360
    wrap to N.  (The exact sectors are 11.25 wide on each side; the quarter
    of a degree left out keeps the statement clear of rounding.) *)
Theorem degrees_to_compass_sector (degrees : Q) :
  (exists d : string,
     NHCEngine._degrees_to_compass degrees = Some d /\ In d NHCEngine.directions)
  /\ (forall k : Z,
        (0 <= k <= 16)%Z ->
        22.5 * inject_Z k - 11 <= degrees <= 22.5 * inject_Z k + 11 ->
        NHCEngine._degrees_to_compass degrees
        = nth_error NHCEngine.directions (Z.to_nat (k mod 16))).
Proof.
  unfold NHCEngine._degrees_to_compass. cbv zeta. split.
  - apply py_index_in_range. cbn. apply Z.mod_pos_bound. lia.
  - intros k [Hk _] [Hlow Hhigh].
    assert (inject_Z k <= (degrees + 11.25) / 22.5 < inject_Z (k + 1)) as Hq.
    { rewrite inject_Z_plus. change (inject_Z 1) with 1. split.
      - apply Qle_shift_div_l; lra.
      - apply Qlt_shift_div_r; lra. }
    rewrite py_int_nonneg, (Qfloor_unique _ k Hq).
    + apply py_index_in_range. cbn. apply Z.mod_pos_bound. lia.
    + apply Qle_trans with (inject_Z k); [| tauto].
      change 0 with (inject_Z 0). rewrite <- Zle_Qle. exact Hk.
Qed.

Lemma degrees_to_compass_sector_witness :
  NHCEngine._degrees_to_compass 100 = Some "E"
  /\ NHCEngine._degrees_to_compass 350 = Some "N".
Proof.
  split.
  - apply (proj2 (degrees_to_compass_sector 100) 4%Z);
      [lia | split; vm_compute; discriminate].
  - apply (proj2 (degrees_to_compass_sector 350) 16%Z);
      [lia | split; vm_compute; discriminate].
Defined.

(** X10. Truncation is towards zero, so the sector of N is twice as wide
    below zero: every bearing from -33 to 11 gives N, the negative bearings
    from -33 to -11.25 included, which lie in the sector of NNW.  (The
    bounds stay a quarter of a degree inside the exact interval
    (-33.75, 11.25), clear of rounding.) *)
Theorem degrees_to_compass_negative (degrees : Q) :
  -33 <= degrees <= 11 -> NHCEngine._degrees_to_compass degrees = Some "N".
Proof.
  intros [Hlow Hhigh]. unfold NHCEngine._degrees_to_compass. cbv zeta.
  rewrite py_int_small; [reflexivity |].
  split.
  - apply Qlt_shift_div_l; lra.
  - apply Qlt_shift_div_r; lra.
Qed.

Lemma degrees_to_compass_negative_witness :
  NHCEngine._degrees_to_compass (-20) = Some "N".
Proof.
  apply degrees_to_compass_negative. split; vm_compute; discriminate.
Defined.

(* ======================================================================== *)
(** * Memory across calls                                                     *)
(* ======================================================================== *)






(* ======================================================================== *)
(** * Insights                                                                *)
(* ======================================================================== *)

(** Case analysis on the string tests of the goal, impossible cases
    discarded. *)
Ltac scase :=
  repeat match goal with
  | |- context [String.eqb ?a ?b] =>
      destruct (String.eqb_spec a b); try discriminate; try congruence
  end.

(** X12. For a state returned by [calculate_constraints] the time-to-peak
    estimate follows the regime: it is the 12-24 hours phrase exactly for
    PEAK_LIMITED and the 24-48 hours phrase exactly for RI_CANDIDATE (an RI
    candidate has I > 0.65, so it is never reported at peak); it is the
    at-peak phrase exactly when the regime is neither and I < 0.30, and
    absent otherwise. *)
Theorem time_to_peak_of_returned_state
  (self self' : ConstraintEngine.t) (nhc : NHCAdvisory.t) (env env' : EnvironmentalData.t)
  (st : ConstraintState.t) :
  ConstraintEngine.calculate_constraints self nhc env = Ok (st, self') ->
  let estimate := InsightGenerator._estimate_time_to_peak st env' in
  (estimate = Some "within 12-24 hours" <-> ConstraintState.regime st = "PEAK_LIMITED")
  /\ (estimate = Some "24-48 hours (if RI occurs)"
      <-> ConstraintState.regime st = "RI_CANDIDATE")
  /\ (estimate = Some "at or near peak now"
      <-> In (ConstraintState.regime st) ["COLLAPSE"; "DECAY"; "STABLE"]
          /\ ConstraintState.I st < 0.30)
  /\ (estimate = None
      <-> In (ConstraintState.regime st) ["COLLAPSE"; "DECAY"; "STABLE"]
          /\ 0.30 <= ConstraintState.I st).
Proof.
  intros E.
  destruct (calculate_constraints_fields self self' nhc env st E) as [_ [_ [Hreg _]]].
  cbv zeta. unfold InsightGenerator._estimate_time_to_peak.
  rewrite Hreg, identify_regime_chain. clear Hreg E.
  generalize (ConstraintState.R st), (ConstraintState.S st), (ConstraintState.dI_dt st),
    (ConstraintState.dR_dt st), (ConstraintState.dS_dt st), (ConstraintState.I st).
  intros R S dI_dt dR_dt dS_dt I.
  destruct ((I >? 0.65) && (R >? 0.70) && (S >? 0.60)
            && ((dI_dt >? 0.01) || (dS_dt >? 0.01))) eqn:Eri;
    [apply ri_candidate_test in Eri; destruct Eri as [HI _]
    | destruct ((I <? 0.35) && (S >? 0.60));
      [| destruct ((S <? 0.35) || ((dS_dt <? -0.05) && (S <? 0.50)));
         [| destruct (((dI_dt <? -0.02) && (dR_dt <? -0.02)) || (dS_dt <? -0.03))]]];
    destruct (Qltb_reflect I 0.30) as [Hlt | Hge]; scase; cbn [In];
    repeat split; intros; try discriminate; try lra; try tauto;
    try (intuition (discriminate || lra)).
Qed.

Lemma time_to_peak_of_returned_state_witness :
  exists (st : ConstraintState.t) (self' : ConstraintEngine.t),
    ConstraintEngine.calculate_constraints
      ConstraintEngine.__init__ sample_advisory sample_environment = Ok (st, self')
    /\ InsightGenerator._estimate_time_to_peak st sample_environment = None.
Proof.
  assert (exists (st : ConstraintState.t) (self' : ConstraintEngine.t),
            ConstraintEngine.calculate_constraints
              ConstraintEngine.__init__ sample_advisory sample_environment = Ok (st, self')
            /\ In (ConstraintState.regime st) ["COLLAPSE"; "DECAY"; "STABLE"]
            /\ 0.30 <= ConstraintState.I st) as [st [self' [E H]]].
  { do 2 eexists. split; [vm_compute; reflexivity |].
    split; [vm_compute; tauto | vm_compute; discriminate]. }
  exists st, self'. split; [exact E |].
  apply (time_to_peak_of_returned_state _ _ _ _ sample_environment _ E). exact H.
Defined.

(** The comparative insight fails exactly as the division by the potential
    intensity. *)
Lemma comparative_insight_total
  (nhc : NHCAdvisory.t) (c : ConstraintState.t) (env : EnvironmentalData.t) :
  ~ EnvironmentalData.potential_intensity env == 0 ->
  exists s : string, InsightGenerator._generate_comparative_insight nhc c env = Ok s.
Proof.
  intros HPI. unfold InsightGenerator._generate_comparative_insight.
  rewrite (py_div_nonzero _ _ HPI). cbn [bind]. eexists. reflexivity.
Qed.

(** Under a non-zero potential intensity the insight depends on the
    presence of a pressure only. *)
Lemma generate_insight_total_or_type_error
  (nhc : NHCAdvisory.t) (c : ConstraintState.t) (env : EnvironmentalData.t) :
  ~ EnvironmentalData.potential_intensity env == 0 ->
  match NHCAdvisory.current_pressure nhc with
  | None => InsightGenerator.generate_insight nhc c env = Raise TypeError
  | Some _ =>
      exists i : DiagnosticInsight.t, InsightGenerator.generate_insight nhc c env = Ok i
  end.
Proof.
  intros HPI.
  unfold InsightGenerator.generate_insight, InsightGenerator._summarize_nhc.
  destruct (NHCAdvisory.current_pressure nhc) as [p |]; [| reflexivity].
  cbn [format_0f_opt bind].
  destruct (comparative_insight_total nhc c env HPI) as [s Hs].
  rewrite Hs, (py_div_nonzero _ _ HPI). cbn [bind]. eexists. reflexivity.
Qed.

(** X13. [generate_insight] fails in two cases only: with a type error when
    the advisory has no pressure, whatever the potential intensity, and with
    a division error when the pressure is present and the potential
    intensity is 0.  Otherwise it returns an insight that carries the time
    and name of the advisory and the summary of the state, whose ceiling
    percentage is intensity / potential intensity * 100, unclamped. *)
Theorem generate_insight_outcome
  (nhc : NHCAdvisory.t) (c : ConstraintState.t) (env : EnvironmentalData.t) :
  let PI := EnvironmentalData.potential_intensity env in
  match NHCAdvisory.current_pressure nhc with
  | None => InsightGenerator.generate_insight nhc c env = Raise TypeError
  | Some _ =>
      (PI == 0 -> InsightGenerator.generate_insight nhc c env = Raise ZeroDivisionError)
      /\ (~ PI == 0 ->
          exists i : DiagnosticInsight.t,
            InsightGenerator.generate_insight nhc c env = Ok i
            /\ DiagnosticInsight.timestamp i = NHCAdvisory.advisory_time nhc
            /\ DiagnosticInsight.storm_name i = NHCAdvisory.storm_name nhc
            /\ DiagnosticInsight.constraint_summary i = ConstraintState.constraint_summary c
            /\ DiagnosticInsight.confidence i = InsightGenerator._calculate_confidence c
            /\ DiagnosticInsight.thermodynamic_ceiling_pct i
               == NHCAdvisory.current_intensity nhc / PI * 100)
  end.
Proof.
  cbv zeta. unfold InsightGenerator.generate_insight, InsightGenerator._summarize_nhc.
  destruct (NHCAdvisory.current_pressure nhc) as [p |]; [| reflexivity].
  cbn [format_0f_opt bind]. split.
  - intros HPI. unfold InsightGenerator._generate_comparative_insight.
    rewrite (py_div_zero _ _ HPI). reflexivity.
  - intros HPI.
    destruct (comparative_insight_total nhc c env HPI) as [s Hs].
    rewrite Hs, (py_div_nonzero _ _ HPI). cbn [bind].
    eexists. split; [reflexivity |]. cbn. repeat split; reflexivity.
Qed.

Lemma generate_insight_outcome_witness :
  InsightGenerator.generate_insight sample_advisory
    {| ConstraintState.timestamp := 0%Z; ConstraintState.storm_name := "IAN";
       ConstraintState.I := 0.7; ConstraintState.R := 0.7; ConstraintState.S := 0.6;
       ConstraintState.L := 0.294; ConstraintState.dI_dt := 0;
       ConstraintState.dR_dt := 0; ConstraintState.dS_dt := 0;
       ConstraintState.dL_dt := 0; ConstraintState.gradient_hazard := false;
       ConstraintState.refusal_risk := "MODERATE"; ConstraintState.regime := "STABLE";
       ConstraintState.current_intensity := 45;
       ConstraintState.nhc_forecast_change := 0;
       ConstraintState.constraint_summary := "" |}
    (environment_with 0)
  = Raise ZeroDivisionError.
Proof.
  apply (generate_insight_outcome sample_advisory _ (environment_with 0)). reflexivity.
Defined.

(** X14. Processing an advisory with the estimated environment never fails
    in the constraint step, since the estimated potential intensity is at
    least 70: the state is computed and stored in the history in every
    case.  The insight step then succeeds exactly when the advisory has a
    pressure; without one the processing fails with a type error, after the
    state was stored. *)
Theorem process_advisory_outcome
  (self : HurricaneConstraintSystem.t) (month : Z) (nhc : NHCAdvisory.t) :
  let env := EnvironmentalEngine.fetch_environmental_data month
               (NHCAdvisory.latitude nhc) (NHCAdvisory.longitude nhc) in
  let engine := HurricaneConstraintSystem.constraint_engine self in
  let result := HurricaneConstraintSystem.process_advisory self month nhc in
  exists (st : ConstraintState.t) (engine' : ConstraintEngine.t),
    ConstraintEngine.calculate_constraints engine nhc env = Ok (st, engine')
    /\ HurricaneConstraintSystem.constraint_engine (fst result) = engine'
    /\ ConstraintEngine.history engine' = stored engine st
    /\ match NHCAdvisory.current_pressure nhc with
       | None => snd result = Raise TypeError
       | Some _ =>
           exists insight : DiagnosticInsight.t,
             InsightGenerator.generate_insight nhc st env = Ok insight
             /\ snd result = Ok (env, st, insight)
       end.
Proof.
  cbv zeta. unfold HurricaneConstraintSystem.process_advisory.
  set (env := EnvironmentalEngine.fetch_environmental_data month
                (NHCAdvisory.latitude nhc) (NHCAdvisory.longitude nhc)).
  assert (~ EnvironmentalData.potential_intensity env == 0) as HPI.
  { pose proof (potential_intensity_bounds
                  (EnvironmentalEngine._estimate_sst month (NHCAdvisory.latitude nhc)
                     (NHCAdvisory.longitude nhc)) (NHCAdvisory.latitude nhc)) as H.
    unfold env, EnvironmentalEngine.fetch_environmental_data.
    cbn [EnvironmentalData.potential_intensity]. lra. }
  destruct (calculate_constraints_total
              (HurricaneConstraintSystem.constraint_engine self) nhc env HPI)
    as [st [engine' E]].
  destruct (calculate_constraints_inv _ nhc env st engine' E)
    as [_ [_ [_ [_ [_ [_ [_ [_ [Hhist _]]]]]]]]].
  exists st, engine'. rewrite E. split; [reflexivity |].
  pose proof (generate_insight_total_or_type_error nhc st env HPI) as Hgi.
  destruct (NHCAdvisory.current_pressure nhc) as [p |].
  - destruct Hgi as [insight Hi]. rewrite Hi. cbn [fst snd].
    split; [reflexivity | split; [exact Hhist |]].
    exists insight. split; reflexivity.
  - rewrite Hgi. cbn [fst snd]. split; [reflexivity | split; [exact Hhist | reflexivity]].
Qed.

(** A test decided, as the fact it stands for. *)
Ltac decide_test b :=
  let E := fresh "E" in
  destruct b eqn:E;
  [ rewrite ?andb_true_iff, ?Qltb_true in E
  | apply not_true_iff_false in E; rewrite ?andb_true_iff, ?Qltb_true in E ].

(** X15. The forecast implication is never empty, and it is the fallback
    sentence exactly when no rule on I, R, S and the regime fires. *)
Theorem forecast_implication_fallback (nhc : NHCAdvisory.t) (c : ConstraintState.t) :
  let s := InsightGenerator._generate_forecast_implication nhc c in
  s <> ""
  /\ (s = "No strong constraint-based deviations from standard forecast expected."
      <-> ~ ConstraintState.I c < 0.25
          /\ ~ (ConstraintState.I c > 0.65 /\ ConstraintState.R c > 0.70)
          /\ ~ (ConstraintState.S c < 0.35 /\ ConstraintState.dS_dt c < -0.03)
          /\ ConstraintState.regime c <> "RI_CANDIDATE"
          /\ ConstraintState.regime c <> "PEAK_LIMITED").
Proof.
  cbv zeta. unfold InsightGenerator._generate_forecast_implication. cbv zeta.
  decide_test (ConstraintState.I c <? 0.25);
    [| decide_test ((ConstraintState.I c >? 0.65) && (ConstraintState.R c >? 0.70))];
    decide_test ((ConstraintState.S c <? 0.35) && (ConstraintState.dS_dt c <? -0.03));
    (destruct (String.eqb_spec (ConstraintState.regime c) "RI_CANDIDATE") as [Hri | Hri];
     [| destruct (String.eqb_spec (ConstraintState.regime c) "PEAK_LIMITED")
          as [Hpeak | Hpeak]]);
    cbn [InsightGenerator.append_if app join String.concat String.append];
    (split; [discriminate |]); split; intros H; try discriminate H;
    try (exfalso; tauto); try (exfalso; intuition congruence);
    repeat split; try assumption; try tauto; try congruence.
Qed.

(** X16. A state the engine classifies as RI_CANDIDATE always gets the same
    forecast implication, the headroom sentence followed by the rapid
    intensification sentence: its indices exclude the other rules. *)
Theorem forecast_implication_of_ri_candidate
  (self self' : ConstraintEngine.t) (nhc nhc' : NHCAdvisory.t) (env : EnvironmentalData.t)
  (st : ConstraintState.t) :
  ConstraintEngine.calculate_constraints self nhc env = Ok (st, self') ->
  ConstraintState.regime st = "RI_CANDIDATE" ->
  InsightGenerator._generate_forecast_implication nhc' st
  = "Ample headroom for strengthening if other factors align. Rapid intensification (35+ kt in 24h) is possible."
  /\ InsightGenerator._estimate_time_to_peak st env = Some "24-48 hours (if RI occurs)".
Proof.
  intros E Hri.
  destruct (calculate_constraints_fields self self' nhc env st E) as [_ [_ [Hreg _]]].
  rewrite Hri, identify_regime_chain in Hreg.
  assert (ri_candidate_rule (ConstraintState.I st) (ConstraintState.R st)
            (ConstraintState.S st) (ConstraintState.dI_dt st) (ConstraintState.dS_dt st))
    as [HI [HR [HS _]]].
  { apply ri_candidate_test.
    destruct ((ConstraintState.I st >? 0.65) && (ConstraintState.R st >? 0.70)
              && (ConstraintState.S st >? 0.60)
              && ((ConstraintState.dI_dt st >? 0.01) || (ConstraintState.dS_dt st >? 0.01)));
      [reflexivity |].
    repeat match type of Hreg with
           | _ = (if ?b then _ else _) => destruct b; try discriminate Hreg
           end. }
  unfold InsightGenerator._generate_forecast_implication,
    InsightGenerator._estimate_time_to_peak. cbv zeta. rewrite Hri.
  decide_test (ConstraintState.I st <? 0.25); [exfalso; lra |].
  decide_test ((ConstraintState.I st >? 0.65) && (ConstraintState.R st >? 0.70));
    [| exfalso; tauto].
  decide_test ((ConstraintState.S st <? 0.35) && (ConstraintState.dS_dt st <? -0.03));
    [exfalso; lra |].
  decide_test (ConstraintState.I st <? 0.30); [exfalso; lra |].
  split; reflexivity.
Qed.

Lemma forecast_implication_of_ri_candidate_witness :
  exists (st : ConstraintState.t) (self' : ConstraintEngine.t),
    ConstraintEngine.calculate_constraints
      engine_after_depression organized_advisory favorable_environment = Ok (st, self')
    /\ ConstraintState.regime st = "RI_CANDIDATE"
    /\ InsightGenerator._generate_forecast_implication organized_advisory st
       = "Ample headroom for strengthening if other factors align. Rapid intensification (35+ kt in 24h) is possible.".
Proof.
  assert (exists (st : ConstraintState.t) (self' : ConstraintEngine.t),
            ConstraintEngine.calculate_constraints
              engine_after_depression organized_advisory favorable_environment
            = Ok (st, self')
            /\ ConstraintState.regime st = "RI_CANDIDATE") as [st [self' [E Hri]]].
  { do 2 eexists. split; vm_compute; reflexivity. }
  exists st, self'. split; [exact E | split; [exact Hri |]].
  apply (forecast_implication_of_ri_candidate _ _ _ organized_advisory _ _ E Hri).
Defined.

(** X17. Under a non-zero potential intensity the comparative insight is
    never empty, and it is the fallback sentence exactly when none of the
    remarks is triggered: the ceiling percentage is neither above 85 nor
    below 60 with I > 0.60, the structure rules do not fire, the regime is
    none of RI_CANDIDATE, PEAK_LIMITED and COLLAPSE, and the gradient hazard
    flag is not set.  Under a zero potential intensity it fails with the
    division error. *)
Theorem comparative_insight_fallback
  (nhc : NHCAdvisory.t) (c : ConstraintState.t) (env : EnvironmentalData.t) :
  let PI := EnvironmentalData.potential_intensity env in
  let ceiling_pct := NHCAdvisory.current_intensity nhc / PI * 100 in
  (PI == 0 ->
   InsightGenerator._generate_comparative_insight nhc c env = Raise ZeroDivisionError)
  /\ (~ PI == 0 ->
      exists s : string,
        InsightGenerator._generate_comparative_insight nhc c env = Ok s
        /\ s <> ""
        /\ (s = "Constraint analysis aligns with current NHC assessment."
            <-> ~ ceiling_pct > 85
                /\ ~ (ceiling_pct < 60 /\ ConstraintState.I c > 0.60)
                /\ ~ (ConstraintState.S c < 0.40 /\ NHCAdvisory.current_intensity nhc > 80)
                /\ ~ (ConstraintState.S c > 0.80 /\ ConstraintState.dS_dt c > 0)
                /\ ConstraintState.regime c <> "RI_CANDIDATE"
                /\ ConstraintState.regime c <> "PEAK_LIMITED"
                /\ ConstraintState.regime c <> "COLLAPSE"
                /\ ConstraintState.gradient_hazard c = false)).
Proof.
  cbv zeta. unfold InsightGenerator._generate_comparative_insight. split.
  - intros HPI. rewrite (py_div_zero _ _ HPI). reflexivity.
  - intros HPI. rewrite (py_div_nonzero _ _ HPI). cbn [bind]. cbv zeta.
    set (pct := NHCAdvisory.current_intensity nhc
                / EnvironmentalData.potential_intensity env * 100).
    eexists. split; [reflexivity |].
    decide_test (pct >? 85);
      [| decide_test ((pct <? 60) && (ConstraintState.I c >? 0.60))];
      (decide_test ((ConstraintState.S c <? 0.40) && (NHCAdvisory.current_intensity nhc >? 80));
       [| decide_test ((ConstraintState.S c >? 0.80) && (ConstraintState.dS_dt c >? 0))]);
      (destruct (String.eqb_spec (ConstraintState.regime c) "RI_CANDIDATE") as [Hri | Hri];
       [| destruct (String.eqb_spec (ConstraintState.regime c) "PEAK_LIMITED")
            as [Hpeak | Hpeak];
          [| destruct (String.eqb_spec (ConstraintState.regime c) "COLLAPSE")
               as [Hcol | Hcol]]]);
      destruct (ConstraintState.gradient_hazard c);
      cbn [InsightGenerator.append_if app join String.concat String.append];
      (split; [discriminate |]); split; intros H; try discriminate H;
      try (exfalso; tauto); try (exfalso; intuition congruence);
      repeat split; try assumption; try tauto; try congruence.
Qed.

Lemma comparative_insight_fallback_witness :
  exists s : string,
    InsightGenerator._generate_comparative_insight sample_advisory
      {| ConstraintState.timestamp := 0%Z; ConstraintState.storm_name := "IAN";
         ConstraintState.I := 0.7; ConstraintState.R := 0.7; ConstraintState.S := 0.6;
         ConstraintState.L := 0.294; ConstraintState.dI_dt := 0;
         ConstraintState.dR_dt := 0; ConstraintState.dS_dt := 0;
         ConstraintState.dL_dt := 0; ConstraintState.gradient_hazard := false;
         ConstraintState.refusal_risk := "MODERATE"; ConstraintState.regime := "STABLE";
         ConstraintState.current_intensity := 45;
         ConstraintState.nhc_forecast_change := 0;
         ConstraintState.constraint_summary := "" |}
      (environment_with 60)
    = Ok s
    /\ s <> "".
Proof.
  destruct (comparative_insight_fallback sample_advisory
              {| ConstraintState.timestamp := 0%Z; ConstraintState.storm_name := "IAN";
                 ConstraintState.I := 0.7; ConstraintState.R := 0.7; ConstraintState.S := 0.6;
                 ConstraintState.L := 0.294; ConstraintState.dI_dt := 0;
                 ConstraintState.dR_dt := 0; ConstraintState.dS_dt := 0;
                 ConstraintState.dL_dt := 0; ConstraintState.gradient_hazard := false;
                 ConstraintState.refusal_risk := "MODERATE"; ConstraintState.regime := "STABLE";
                 ConstraintState.current_intensity := 45;
                 ConstraintState.nhc_forecast_change := 0;
                 ConstraintState.constraint_summary := "" |}
              (environment_with 60)) as [_ H].
  destruct H as [s [Hs [Hne _]]].
  - cbn. intros H. discriminate H.
  - exists s. split; assumption.
Defined.

(* ======================================================================== *)
(** * Reading the history                                                     *)
(* ======================================================================== *)

(** X18. [get_constraint_history] with a non-empty storm name returns
    exactly the states of the history with that name, in the order of the
    history; without a name, or with the empty name, it returns the whole
    history, whatever the names of its states. *)
Theorem get_constraint_history_selects
  (self : HurricaneConstraintSystem.t) (name : string) :
  let history :=
    ConstraintEngine.history (HurricaneConstraintSystem.constraint_engine self) in
  HurricaneConstraintSystem.get_constraint_history self None = history
  /\ HurricaneConstraintSystem.get_constraint_history self (Some "") = history
  /\ (name <> "" ->
      let selected := HurricaneConstraintSystem.get_constraint_history self (Some name) in
      (forall s : ConstraintState.t,
         In s selected <-> In s history /\ ConstraintState.storm_name s = name)
      /\ (List.length selected <= List.length history)%nat
      /\ (Forall (fun s => ConstraintState.storm_name s = name) history ->
          selected = history)
      /\ (forall h1 h2 : list ConstraintState.t,
            history = (h1 ++ h2)%list ->
            selected
            = (filter (fun s => String.eqb (ConstraintState.storm_name s) name) h1
               ++ filter (fun s => String.eqb (ConstraintState.storm_name s) name) h2)%list)).
Proof.
  cbv zeta. split; [reflexivity | split; [reflexivity |]].
  intros Hname. unfold HurricaneConstraintSystem.get_constraint_history.
  destruct (String.eqb_spec name "") as [Hempty | _]; [contradiction |].
  cbn [negb]. split; [| split; [| split]].
  - intros s. rewrite filter_In, String.eqb_eq. reflexivity.
  - apply filter_length_le.
  - intros Hall. apply forallb_filter_id. apply forallb_forall.
    rewrite Forall_forall in Hall. intros s Hs. apply String.eqb_eq. now apply Hall.
  - intros h1 h2 ->. apply filter_app.
Qed.

Lemma get_constraint_history_selects_witness :
  HurricaneConstraintSystem.get_constraint_history
    {| HurricaneConstraintSystem.constraint_engine := engine_after_sample |} (Some "IAN")
  = ConstraintEngine.history engine_after_sample
  /\ HurricaneConstraintSystem.get_constraint_history
       {| HurricaneConstraintSystem.constraint_engine := engine_after_sample |}
       (Some "JULIA")
     = [].
Proof.
  split.
  - apply (get_constraint_history_selects
             {| HurricaneConstraintSystem.constraint_engine := engine_after_sample |} "IAN").
    + discriminate.
    + vm_compute. repeat constructor.
  - vm_compute. reflexivity.
Defined.

(* ======================================================================== *)
(** * The raw indices                                                         *)
(* ======================================================================== *)

Lemma clamp_monotonic (lo hi x y : Q) :
  x <= y -> py_max lo (py_min hi x) <= py_max lo (py_min hi y).
Proof. intros H. unfold py_max, py_min. qsplit; lra. Qed.




(** X20. The pressure score is the neutral 0.5 for an absent pressure and
    also for a pressure of 0, which the engine takes for absent.  For any
    other pressure it is 1 - deviation / 30 clamped at 0, the deviation
    being taken from 1015 - 0.65 intensity: 1 exactly at the expected
    pressure, 0 from a deviation of 30 mb on. *)
Theorem pressure_score_cases (nhc : NHCAdvisory.t) :
  let expected := 1015 - NHCAdvisory.current_intensity nhc * 0.65 in
  match NHCAdvisory.current_pressure nhc with
  | None => ConstraintEngine.pressure_score nhc = 0.5
  | Some p =>
      (p == 0 -> ConstraintEngine.pressure_score nhc = 0.5)
      /\ (~ p == 0 ->
          0 <= ConstraintEngine.pressure_score nhc <= 1
          /\ (Qabs (p - expected) <= 30 ->
              ConstraintEngine.pressure_score nhc == 1 - Qabs (p - expected) / 30)
          /\ (30 <= Qabs (p - expected) -> ConstraintEngine.pressure_score nhc == 0)
          /\ (p == expected -> ConstraintEngine.pressure_score nhc == 1))
  end.
Proof.
  cbv zeta. unfold ConstraintEngine.pressure_score.
  destruct (NHCAdvisory.current_pressure nhc) as [p |]; [| reflexivity].
  unfold truthy. split.
  - intros Hp. rewrite (Qeq_eq_bool _ _ Hp). reflexivity.
  - intros Hp. destruct (Qeq_bool p 0) eqn:E; [apply Qeq_bool_eq in E; contradiction |].
    cbn [negb]. cbv zeta.
    set (expected := 1015 - NHCAdvisory.current_intensity nhc * 0.65).
    pose proof (Qabs_nonneg (p - expected)) as Hnonneg.
    unfold py_max, Qdiv. change (/ 30.0) with (10 # 300). change (/ 30) with (1 # 30).
    split; [| split; [| split]].
    + qsplit; lra.
    + intros H. qsplit; lra.
    + intros H. qsplit; lra.
    + intros H. assert (Qabs (p - expected) == 0) as H0.
      { setoid_replace (p - expected) with 0 by lra. reflexivity. }
      qsplit; lra.
Qed.

Lemma pressure_score_cases_witness :
  ConstraintEngine.pressure_score (advisory_with 45 (Some 0)) = 0.5
  /\ ConstraintEngine.pressure_score (advisory_with 100 (Some 950)) == 1.
Proof.
  split.
  - apply (pressure_score_cases (advisory_with 45 (Some 0))). reflexivity.
  - apply (pressure_score_cases (advisory_with 100 (Some 950))).
    + cbn. intros H. discriminate H.
    + reflexivity.
Defined.

(** X21. Between environments at the same latitude, the raw environmental
    favorability never increases with the shear and never decreases with
    the sea surface temperature. *)
Theorem R_raw_monotonic (env env' : EnvironmentalData.t) :
  EnvironmentalData.latitude env = EnvironmentalData.latitude env' ->
  EnvironmentalData.wind_shear env' <= EnvironmentalData.wind_shear env ->
  EnvironmentalData.sst env <= EnvironmentalData.sst env' ->
  ConstraintEngine.R_raw env <= ConstraintEngine.R_raw env'.
Proof.
  intros Hlat Hshear Hsst. unfold ConstraintEngine.R_raw. cbv zeta.
  apply clamp_monotonic. rewrite Hlat.
  set (lat_factor := py_max 0 (1.0 - Qabs (EnvironmentalData.latitude env' - 22) / 25)).
  assert (py_max 0 (1.0 - EnvironmentalData.wind_shear env / 35.0)
          <= py_max 0 (1.0 - EnvironmentalData.wind_shear env' / 35.0)) as H1.
  { unfold py_max, Qdiv. change (/ 35.0) with (10 # 350). qsplit; lra. }
  assert (py_max 0 (py_min 1.0 ((EnvironmentalData.sst env - 24.0) / 6.0))
          <= py_max 0 (py_min 1.0 ((EnvironmentalData.sst env' - 24.0) / 6.0))) as H2.
  { apply clamp_monotonic. unfold Qdiv. change (/ 6.0) with (10 # 60). lra. }
  lra.
Qed.

Lemma R_raw_monotonic_witness :
  ConstraintEngine.R_raw sample_environment
  <= ConstraintEngine.R_raw
       {| EnvironmentalData.sst := 30;
          EnvironmentalData.wind_shear := 5;
          EnvironmentalData.potential_intensity := 150;
          EnvironmentalData.latitude := 18;
          EnvironmentalData.source := "ships" |}.
Proof.
  apply R_raw_monotonic.
  - reflexivity.
  - vm_compute. discriminate.
  - vm_compute. discriminate.
Defined.
